(** * Escrow bot: payment and balance consistency

    A shallow embedding of the storage layer ([db.py]), the webhook
    reconciler ([payment.py], [nowpayments_adapter.py]), the polling
    monitor ([payment_monitor.py]), the admin workflows ([admin.py]) and the
    deal-creation handler ([bot.py]), followed by the properties of the
    payment and balance engine.

    Modelling conventions.
    - The SQLite database is a record of four tables.  [users] is keyed by
      its primary key [user_id]; [payments] is keyed by the [UNIQUE] column
      [payment_id]; [withdrawal_history] and [deals] have [AUTOINCREMENT]
      keys and are never deleted from, so row [k] is the [k]-th element of a
      list (ids start at 1).
    - Amounts and balances ([REAL] columns, Python floats) are exact
      integers; binary rounding is outside the model.  What is stated of
      a balance after several additions names the additions in the order
      the code performs them.
    - Timestamps are integers (seconds).  Every operation that stamps a row
      or reads the clock receives the current time as the argument [now].
    - Status columns are strings, as in the source.
    - The storage layer is reachable: [get_db_connection] returns a
      connection and no statement raises [sqlite3.Error].  Operations are
      run one at a time. *)

From stdpp Require Import gmap strings list sorting.
From Stdlib Require Import ZArith Lia.

Local Open Scope Z_scope.

(** ** Tables (db.py, [init_db]) *)

Record user_row := mk_user {
  balance : Z;
  deals_done : Z;
  user_created_at : Z;
  user_updated_at : Z
}.

Record withdrawal_row := mk_withdrawal {
  w_user_id : Z;
  w_amount : Z;
  w_status : string;
  w_admin_notes : option string;
  w_timestamp : Z
}.

Record deal_row := mk_deal {
  buyer_id : Z;
  seller_username : string;
  description : string;
  d_amount : Z;
  d_status : string;
  d_created_at : Z;
  d_updated_at : Z;
  completed_at : option Z;
  dispute_reason : option string;
  d_admin_notes : option string
}.

Record payment_row := mk_payment {
  p_user_id : Z;
  p_amount : Z;
  p_currency : string;
  p_status : string;
  p_invoice_url : string;
  p_created_at : Z;
  p_updated_at : Z
}.

Record db := mk_db {
  users : gmap Z user_row;
  withdrawal_history : list withdrawal_row;
  deals : list deal_row;
  payments : gmap string payment_row
}.

Definition set_users (st : db) (us : gmap Z user_row) : db :=
  mk_db us (withdrawal_history st) (deals st) (payments st).
Definition set_withdrawal_history (st : db) (ws : list withdrawal_row) : db :=
  mk_db (users st) ws (deals st) (payments st).
Definition set_deals (st : db) (ds : list deal_row) : db :=
  mk_db (users st) (withdrawal_history st) ds (payments st).
Definition set_payments (st : db) (ps : gmap string payment_row) : db :=
  mk_db (users st) (withdrawal_history st) (deals st) ps.

Definition empty_db : db := mk_db ∅ [] [] ∅.

(** Row with [AUTOINCREMENT] id [k] of a table kept as a list. *)
Definition row_at {A} (rows : list A) (k : Z) : option A :=
  if decide (1 ≤ k) then rows !! Z.to_nat (k - 1) else None.

Definition set_row_at {A} (rows : list A) (k : Z) (r : A) : list A :=
  if decide (1 ≤ k) then <[Z.to_nat (k - 1) := r]> rows else rows.

(** The balance a user is shown: the stored one, 0 before the account row
    exists (accounts are created lazily with [balance REAL DEFAULT 0]). *)
Definition balance_of (st : db) (user_id : Z) : Z :=
  match users st !! user_id with
  | Some u => balance u
  | None => 0
  end.

(** ** db.py *)

(** [get_user]: the row of [user_id], inserted with the column defaults when
    it is missing. *)
Definition get_user (st : db) (now : Z) (user_id : Z) : db * user_row :=
  match users st !! user_id with
  | Some u => (st, u)
  | None =>
      let u := mk_user 0 0 now now in
      (set_users st (<[user_id := u]> (users st)), u)
  end.

(** [update_balance]: one read-modify-write transaction.  The negative
    balance check sits in the branch of an existing row only. *)
Definition update_balance (st : db) (now : Z) (user_id amount : Z) : db * bool :=
  match users st !! user_id with
  | None =>
      (set_users st (<[user_id := mk_user amount 0 now now]> (users st)), true)
  | Some u =>
      let current_balance := balance u in
      let new_balance := current_balance + amount in
      if decide (new_balance < 0) then (st, false)
      else
        (set_users st
           (<[user_id := mk_user new_balance (deals_done u) (user_created_at u) now]>
              (users st)),
         true)
  end.

(** [add_withdrawal_history]: a new request, [status] by default 'pending'. *)
Definition add_withdrawal_history (st : db) (now : Z) (user_id amount : Z) : db * bool :=
  (set_withdrawal_history st
     (withdrawal_history st ++ [mk_withdrawal user_id amount "pending" None now]),
   true).

(** [create_deal]: a new deal, [status] by default 'waiting'; the result is
    [lastrowid]. *)
Definition create_deal (st : db) (now : Z) (buyer : Z) (seller descr : string)
    (amount : Z) : db * option Z :=
  (set_deals st
     (deals st ++ [mk_deal buyer seller descr amount "waiting" now now None None None]),
   Some (Z.of_nat (length (deals st)) + 1)).

(** [update_deal_status]: the notes are written only when given and not
    empty; an unknown id updates no row and still reports success. *)
Definition update_deal_status (st : db) (now : Z) (deal_id : Z) (status : string)
    (admin_notes : option string) : db * bool :=
  match row_at (deals st) deal_id with
  | None => (st, true)
  | Some deal =>
      let notes :=
        match admin_notes with
        | Some n => if decide (n = "") then d_admin_notes deal else Some n
        | None => d_admin_notes deal
        end in
      (set_deals st
         (set_row_at (deals st) deal_id
            (mk_deal (buyer_id deal) (seller_username deal) (description deal)
               (d_amount deal) status (d_created_at deal) now (completed_at deal)
               (dispute_reason deal) notes)),
       true)
  end.

(** [add_payment]: validation of the arguments, then an insert with status
    'pending' unless a row with this [payment_id] exists already. *)
Definition add_payment (st : db) (now : Z) (user_id : Z) (payment_id : string)
    (amount : Z) (currency invoice_url : string) : db * bool :=
  if decide (payment_id = "") then (st, false)
  else if decide (user_id = 0) then (st, false)
  else if decide (amount = 0 ∨ amount ≤ 0) then (st, false)
  else if decide (currency = "") then (st, false)
  else
    match payments st !! payment_id with
    | Some _ => (st, true)
    | None =>
        (set_payments st
           (<[payment_id := mk_payment user_id amount currency "pending" invoice_url now now]>
              (payments st)),
         true)
    end.

Definition valid_statuses : list string :=
  ["pending"; "confirming"; "confirmed"; "failed"; "cancelled"; "expired"].

(** [update_payment_status]: validation, lookup, and an unconditional
    overwrite of a differing stored status. *)
Definition update_payment_status (st : db) (now : Z) (payment_id status : string)
    : db * bool :=
  if decide (payment_id = "") then (st, false)
  else if decide (status = "") then (st, false)
  else if decide (status ∈ valid_statuses) then
    match payments st !! payment_id with
    | None => (st, false)
    | Some p =>
        let current_status := p_status p in
        if decide (current_status = status) then (st, true)
        else
          (set_payments st
             (<[payment_id :=
                  mk_payment (p_user_id p) (p_amount p) (p_currency p) status
                    (p_invoice_url p) (p_created_at p) now]>
                (payments st)),
           true)
    end
  else (st, false).

(** [get_pending_payments]:
    [SELECT * FROM payments WHERE status = 'pending' ORDER BY created_at DESC]. *)
Definition created_desc (a b : string * payment_row) : Prop :=
  p_created_at b.2 ≤ p_created_at a.2.

Global Instance created_desc_dec a b : Decision (created_desc a b).
Proof. unfold created_desc. apply _. Defined.

Definition get_pending_payments (st : db) : list (string * payment_row) :=
  merge_sort created_desc
    (filter (λ r, p_status r.2 = "pending") (map_to_list (payments st))).

(** ** Observable effects outside the database *)

(** Messages sent through the bot, handlers registered for the next message
    of a chat, and status queries sent to the payment processor. *)
Inductive amount_error :=
  | AmountTooSmall (min_amount : Z)
  | AmountTooLarge (max_amount : Z)
  | InvalidAmountFormat.

Inductive bot_text :=
  | CouldNotGetUserId
  | UserNotFound
  | AmountRejected (e : amount_error)
  | InsufficientBalance (required available : Z)
  | DealCreated (deal_id amount : Z) (seller descr : string)
  | DealFailed.

Inductive event :=
  | PaymentConfirmedMessage (user_id amount : Z) (payment_id : string)
  | BotMessage (chat_id : Z) (text : bot_text)
  | RegisterNextStep (chat_id : Z) (handler : string)
  | RemoteStatusQuery (payment_id : string).

(** ** nowpayments_adapter.py *)

(** A decoded JSON object whose fields are strings; [data.get(k)] is the
    lookup, [None] when the key is missing. *)
Abbreviation json_object := (gmap string string).

(** Python's [a or b] on optional strings: [None] and the empty string are
    falsy. *)
Definition truthy (v : option string) : bool :=
  match v with
  | Some s => bool_decide (s ≠ "")
  | None => false
  end.

Definition py_or (a b : option string) : option string :=
  if truthy a then a else b.

Definition extract_payment_id (data : json_object) : option string :=
  let payment_id := py_or (data !! "payment_id") (data !! "id") in
  if truthy payment_id then payment_id else None.

Definition extract_payment_status (data : json_object) : option string :=
  let status := py_or (data !! "payment_status") (data !! "status") in
  if truthy status then status else None.

(** [validate_webhook_payload]: [(is_valid, payment_id, payment_status)];
    the error text is dropped. *)
Definition validate_webhook_payload (data : json_object)
    : bool * option string * option string :=
  let payment_id := extract_payment_id data in
  let payment_status := extract_payment_status data in
  if negb (truthy payment_id) then (false, None, None)
  else if negb (truthy payment_status) then (false, None, None)
  else (true, payment_id, payment_status).

(** ** payment.py *)

Section Payment.

(** [config.WEBHOOK_SECRET], HMAC-SHA512 as a hexadecimal digest of a
    payload under a key, and [json.loads] restricted to objects ([None]
    for a payload that does not decode to one). *)
Variable WEBHOOK_SECRET : string.
Variable hmac_sha512_hex : string → string → string.
Variable json_loads : string → option json_object.

Definition verify_webhook_signature (payload signature : string) : bool :=
  if decide (WEBHOOK_SECRET = "") then true
  else bool_decide (signature = hmac_sha512_hex WEBHOOK_SECRET payload).

Definition get_payment_by_id (st : db) (payment_id : string) : option payment_row :=
  payments st !! payment_id.

(** [process_webhook]: the new state, the returned flag and the messages
    sent. *)
Definition process_webhook (st : db) (now : Z) (payload signature : string)
    : db * bool * list event :=
  if negb (verify_webhook_signature payload signature) then (st, false, [])
  else
    match json_loads payload with
    | None => (st, false, [])
    | Some data =>
        match validate_webhook_payload data with
        | (true, Some payment_id, Some payment_status) =>
            match get_payment_by_id st payment_id with
            | None => (st, false, [])
            | Some existing_payment =>
                if decide (p_status existing_payment = payment_status)
                then (st, true, [])
                else
                  let '(st1, updated) :=
                    update_payment_status st now payment_id payment_status in
                  if negb updated then (st1, false, [])
                  else if decide (payment_status = "confirmed") then
                    let user_id := p_user_id existing_payment in
                    let amount := p_amount existing_payment in
                    if bool_decide (user_id ≠ 0) && bool_decide (amount ≠ 0) then
                      let '(st2, credited) := update_balance st1 now user_id amount in
                      if credited
                      then (st2, true, [PaymentConfirmedMessage user_id amount payment_id])
                      else (st2, false, [])
                    else (st1, false, [])
                  else (st1, true, [])
            end
        | _ => (st, false, [])
        end
    end.

End Payment.

(** ** payment_monitor.py *)

Section PaymentMonitor.

(** [payment.verify_payment]: the processor's answer to a status query,
    [None] when the call raises [PaymentError]. *)
Variable verify_payment : string → option json_object.

Definition hours_24 : Z := 24 * 3600.

(** [_process_confirmed_payment] on the row handed to the check. *)
Definition _process_confirmed_payment (st : db) (now : Z)
    (payment : string * payment_row) : db * list event :=
  let user_id := p_user_id payment.2 in
  let amount := p_amount payment.2 in
  let payment_id := payment.1 in
  if bool_decide (user_id ≠ 0) && bool_decide (amount ≠ 0) then
    let '(st1, credited) := update_balance st now user_id amount in
    if credited then (st1, [PaymentConfirmedMessage user_id amount payment_id])
    else (st1, [])
  else (st, []).

(** [_check_single_payment] on a row read earlier ([payment]); [now] is
    the clock at the time of the check. *)
Definition _check_single_payment (st : db) (now : Z)
    (payment : string * payment_row) : db * list event :=
  let payment_id := payment.1 in
  let created_at := p_created_at payment.2 in
  if decide (payment_id = "") then (st, [])
  else if decide (now - created_at > hours_24) then
    ((update_payment_status st now payment_id "expired").1, [])
  else
    match verify_payment payment_id with
    | None => (st, [RemoteStatusQuery payment_id])
    | Some payment_info =>
        if decide (payment_info = ∅) then (st, [RemoteStatusQuery payment_id])
        else
          match extract_payment_status payment_info with
          | Some new_status =>
              if decide (new_status ≠ p_status payment.2) then
                let st1 := (update_payment_status st now payment_id new_status).1 in
                if decide (new_status = "confirmed") then
                  let '(st2, sent) := _process_confirmed_payment st1 now payment in
                  (st2, RemoteStatusQuery payment_id :: sent)
                else (st1, [RemoteStatusQuery payment_id])
              else (st, [RemoteStatusQuery payment_id])
          | None => (st, [RemoteStatusQuery payment_id])
          end
    end.

(** The loop of [_check_pending_payments] over the rows fetched at the
    start of the cycle. *)
Fixpoint check_each (st : db) (now : Z) (pending : list (string * payment_row))
    : db * list event :=
  match pending with
  | [] => (st, [])
  | payment :: rest =>
      let '(st1, ev1) := _check_single_payment st now payment in
      let '(st2, ev2) := check_each st1 now rest in
      (st2, ev1 ++ ev2)
  end.

Definition _check_pending_payments (st : db) (now : Z) : db * list event :=
  check_each st now (get_pending_payments st).

(** The ids of the rows a cycle fetches and hands, one by one, to
    [_check_single_payment]. *)
Definition examined_payments (st : db) : list string :=
  (get_pending_payments st).*1.

Definition force_check_payment (st : db) (now : Z) (payment_id : string)
    : db * bool * list event :=
  match get_payment_by_id st payment_id with
  | None => (st, false, [])
  | Some p =>
      let '(st1, ev) := _check_single_payment st now (payment_id, p) in
      (st1, true, ev)
  end.

End PaymentMonitor.

(** ** admin.py *)

(** [approve_withdrawal]: only a 'pending' request is touched; no ledger
    call. *)
Definition approve_withdrawal (st : db) (now : Z) (withdrawal_id : Z)
    (admin_notes : option string) : db * bool :=
  match row_at (withdrawal_history st) withdrawal_id with
  | None => (st, false)
  | Some withdrawal =>
      if decide (w_status withdrawal ≠ "pending") then (st, false)
      else
        (set_withdrawal_history st
           (set_row_at (withdrawal_history st) withdrawal_id
              (mk_withdrawal (w_user_id withdrawal) (w_amount withdrawal)
                 "approved" admin_notes now)),
         true)
  end.

(** [reject_withdrawal]: the refund goes through [update_balance], whose
    result is not inspected, before the request is marked. *)
Definition reject_withdrawal (st : db) (now : Z) (withdrawal_id : Z)
    (admin_notes : option string) : db * bool :=
  match row_at (withdrawal_history st) withdrawal_id with
  | None => (st, false)
  | Some withdrawal =>
      if decide (w_status withdrawal ≠ "pending") then (st, false)
      else
        let st1 :=
          (update_balance st now (w_user_id withdrawal) (w_amount withdrawal)).1 in
        (set_withdrawal_history st1
           (set_row_at (withdrawal_history st1) withdrawal_id
              (mk_withdrawal (w_user_id withdrawal) (w_amount withdrawal)
                 "rejected" admin_notes now)),
         true)
  end.

(** The [UPDATE deals] statement that closes [resolve_dispute]. *)
Definition resolved_deal (deal : deal_row) (now : Z) (new_status : string)
    (admin_notes : option string) : deal_row :=
  mk_deal (buyer_id deal) (seller_username deal) (description deal) (d_amount deal)
    new_status (d_created_at deal) now
    (if decide (new_status = "completed") then Some now else None)
    (dispute_reason deal) admin_notes.

(** [resolve_dispute]: both resolutions call [update_balance] on the buyer,
    with the deal amount for 'refund_buyer' and with its negation for
    'pay_seller'; the result of the call is not inspected. *)
Definition resolve_dispute (st : db) (now : Z) (deal_id : Z) (resolution : string)
    (admin_notes : option string) : db * bool :=
  match row_at (deals st) deal_id with
  | None => (st, false)
  | Some deal =>
      if decide (d_status deal ≠ "disputed") then (st, false)
      else if decide (resolution = "refund_buyer") then
        let st1 := (update_balance st now (buyer_id deal) (d_amount deal)).1 in
        (set_deals st1
           (set_row_at (deals st1) deal_id (resolved_deal deal now "cancelled" admin_notes)),
         true)
      else if decide (resolution = "pay_seller") then
        let st1 := (update_balance st now (buyer_id deal) (- d_amount deal)).1 in
        (set_deals st1
           (set_row_at (deals st1) deal_id (resolved_deal deal now "completed" admin_notes)),
         true)
      else (st, false)
  end.

(** [cleanup_old_data]: completed deals whose completion time and
    confirmed or failed payments whose last update lie more than 30 days
    back are set to 'archived'.  A deal without a completion time is not
    matched ([NULL < ?] selects nothing). *)
Definition days_30 : Z := 30 * 24 * 3600.

Definition archive_deal (thirty_days_ago : Z) (deal : deal_row) : deal_row :=
  match completed_at deal with
  | Some t =>
      if decide (d_status deal = "completed" ∧ t < thirty_days_ago) then
        mk_deal (buyer_id deal) (seller_username deal) (description deal)
          (d_amount deal) "archived" (d_created_at deal) (d_updated_at deal)
          (completed_at deal) (dispute_reason deal) (d_admin_notes deal)
      else deal
  | None => deal
  end.

Definition archive_payment (thirty_days_ago : Z) (p : payment_row) : payment_row :=
  if decide (p_status p ∈ ["confirmed"; "failed"] ∧ p_updated_at p < thirty_days_ago) then
    mk_payment (p_user_id p) (p_amount p) (p_currency p) "archived"
      (p_invoice_url p) (p_created_at p) (p_updated_at p)
  else p.

Definition cleanup_old_data (st : db) (now : Z) : db * bool :=
  let thirty_days_ago := now - days_30 in
  (mk_db (users st) (withdrawal_history st)
     (archive_deal thirty_days_ago <$> deals st)
     (archive_payment thirty_days_ago <$> payments st),
   true).

(** ** utils.py and bot.py *)

Section Bot.

(** [float(text)] on the text of a message and [config.MAX_DEAL_AMOUNT].
    [parse_float text = Some z]: [float] returns the number [z];
    [parse_float text = None]: [float] raises [ValueError].  The spellings
    of "nan" and "inf", which [float] turns into values that are no
    numbers and that pass comparisons differently, have no image here;
    the properties of the handlers are stated under one of these two
    readings of the text, with the comparisons the amount meets. *)
Variable parse_float : string → option Z.
Variable MAX_DEAL_AMOUNT : Z.

(** [validate_amount]: the error, or the amount of a valid input.  A
    [max_amount] that is [None] or zero is not checked. *)
Definition validate_amount (text : string) (min_amount : Z) (max_amount : option Z)
    : amount_error + Z :=
  match parse_float text with
  | None => inl InvalidAmountFormat
  | Some amount =>
      if decide (amount < min_amount) then inl (AmountTooSmall min_amount)
      else
        match max_amount with
        | Some m =>
            if bool_decide (m ≠ 0) && bool_decide (amount > m)
            then inl (AmountTooLarge m)
            else inr amount
        | None => inr amount
        end
  end.

(** The message a handler receives, and the state of the bot process: the
    database and the in-memory dictionary of deals being entered. *)
Record message := mk_message {
  from_user_id : option Z;
  chat_id : Z;
  text : string
}.

Record bot_state := mk_bot {
  store : db;
  deal_creation_state : gmap Z json_object
}.

Inductive handler_exit := Returned | Raised (exception : string).

(** [handle_deal_amount]: the deal row is inserted first, the buyer is
    debited afterwards, without inspecting the result of the debit. *)
Definition handle_deal_amount (bs : bot_state) (now : Z) (msg : message)
    : bot_state * list event * handler_exit :=
  match from_user_id msg with
  | None => (bs, [BotMessage (chat_id msg) CouldNotGetUserId], Returned)
  | Some user_id =>
      let '(st1, user) := get_user (store bs) now user_id in
      let bs1 := mk_bot st1 (deal_creation_state bs) in
      let balance := balance user in
      match validate_amount (text msg) 1 (Some MAX_DEAL_AMOUNT) with
      | inl e =>
          (bs1, [BotMessage (chat_id msg) (AmountRejected e);
                 RegisterNextStep (chat_id msg) "handle_deal_amount"], Returned)
      | inr amount =>
          if decide (amount > balance) then
            (bs1, [BotMessage (chat_id msg) (InsufficientBalance amount balance);
                   RegisterNextStep (chat_id msg) "handle_deal_amount"], Returned)
          else
            match deal_creation_state bs !! user_id with
            | None => (bs1, [], Raised "KeyError")
            | Some deal_data =>
                match deal_data !! "seller_username", deal_data !! "description" with
                | Some seller, Some descr =>
                    let '(st2, deal_id) := create_deal st1 now user_id seller descr amount in
                    match deal_id with
                    | Some id =>
                        if bool_decide (id ≠ 0) then
                          let st3 := (update_balance st2 now user_id (- amount)).1 in
                          (mk_bot st3 (delete user_id (deal_creation_state bs)),
                           [BotMessage (chat_id msg) (DealCreated id amount seller descr)],
                           Returned)
                        else
                          (mk_bot st2 (deal_creation_state bs),
                           [BotMessage (chat_id msg) DealFailed], Returned)
                    | None =>
                        (mk_bot st2 (deal_creation_state bs),
                         [BotMessage (chat_id msg) DealFailed], Returned)
                    end
                | _, _ => (bs1, [], Raised "KeyError")
                end
            end
      end
  end.

End Bot.

(** ** Further code of db.py, nowpayments_adapter.py and utils.py *)

(** [get_deal_counts]: [SELECT status, COUNT( * ) ... GROUP BY status] over
    the buyer's deals; a count is taken over only when its status is one of
    the three keys of the result. *)
Definition count_deals (st : db) (user_id : Z) (status : string) : nat :=
  length (filter (λ d, buyer_id d = user_id ∧ d_status d = status) (deals st)).

Definition get_deal_counts (st : db) (user_id : Z) : gmap string nat :=
  {[ "waiting" := count_deals st user_id "waiting";
     "active" := count_deals st user_id "active";
     "disputes" := count_deals st user_id "disputes" ]}.

Definition extract_invoice_url (data : json_object) : option string :=
  let invoice_url := data !! "invoice_url" in
  if truthy invoice_url then invoice_url else None.

(** [validate_invoice_response]: [(is_valid, payment_id, invoice_url)]; the
    error text is one of two constants, kept as a flag on what is missing. *)
Inductive invoice_defect := MissingPaymentId | MissingInvoiceUrl.

Definition validate_invoice_response (data : json_object)
    : invoice_defect + (string * string) :=
  match extract_payment_id data, extract_invoice_url data with
  | None, _ => inl MissingPaymentId
  | Some _, None => inl MissingInvoiceUrl
  | Some payment_id, Some invoice_url => inr (payment_id, invoice_url)
  end.

(** [truncate_text]: [text[:max_length-3] + "..."] for a text longer than
    [max_length].  A slice [text[:k]] with negative [k] drops the last [-k]
    characters.  A string is the sequence of its characters, [len] its
    length. *)
Definition py_slice_to (text : string) (k : Z) : string :=
  if decide (k < 0) then
    String.substring 0 (Z.to_nat (Z.of_nat (String.length text) + k)) text
  else String.substring 0 (Z.to_nat k) text.

Definition truncate_text (text : string) (max_length : Z) : string :=
  if decide (Z.of_nat (String.length text) ≤ max_length) then text
  else py_slice_to text (max_length - 3) +:+ "...".

(** ** Further code of payment.py: [create_invoice] *)

(** What one [requests.post] call can end in.  A response carries its
    status code and the object its body decodes to, [None] when the body
    is not JSON. *)
Inductive http_outcome :=
  | HttpResponse (status_code : Z) (body : option json_object)
  | HttpTimeout
  | HttpConnectionError
  | HttpRequestException (msg : string)
  | HttpOtherException (msg : string).

(** The [PaymentError] raised, by the place that raises it.  An error
    raised inside the [try] block is caught by [except Exception] and
    raised again as [Unexpected]; an error raised by an [except] clause
    leaves the function as it is. *)
Inductive payment_error :=
  | InvalidResponse (d : invoice_defect)
  | SaveFailed
  | AuthenticationFailed
  | AccessDenied
  | ServiceBusy
  | ServiceUnavailable
  | ServiceError (status_code : Z) (message : option string)
  | RequestTimedOut
  | CannotConnect
  | NetworkError (msg : string)
  | Unexpected (inner : payment_error)
  | UnexpectedException (msg : string)
  | RetriesExhausted.

Record invoice := mk_invoice {
  inv_payment_id : string;
  inv_invoice_url : string;
  inv_amount : Z;
  inv_currency : string
}.

Inductive invoice_event :=
  | Posted (price_amount : Z)
  | Slept (seconds : Z).

Definition max_retries : nat := 3.

Section CreateInvoice.

(** The processor, as the outcome of the request of each attempt, and
    whether the installed [requests] raises its own [JSONDecodeError] (a
    [RequestException]) or a plain [ValueError] when a body does not
    decode. *)
Variable post : nat → http_outcome.
Variable json_error_is_request_exception : bool.

(** The body of the [for attempt in range(max_retries)] loop, over the
    attempts still to make. *)
Fixpoint create_invoice_attempts (st : db) (now : Z) (amount user_id : Z)
    (currency : string) (attempts : list nat) (retry_delay : Z)
    : db * (payment_error + invoice) * list invoice_event :=
  match attempts with
  | [] => (st, inl RetriesExhausted, [])
  | attempt :: rest =>
      let retry_or (e : payment_error) :=
        if decide (attempt < max_retries - 1)%nat then
          let '(st', r, tr) :=
            create_invoice_attempts st now amount user_id currency rest (retry_delay * 2) in
          (st', r, Posted (Z.abs amount) :: Slept retry_delay :: tr)
        else (st, inl e, [Posted (Z.abs amount)]) in
      let fail (e : payment_error) := (st, inl e, [Posted (Z.abs amount)]) in
      match post attempt with
      | HttpResponse status_code body =>
          if decide (status_code = 200) then
            match body with
            | None =>
                if json_error_is_request_exception
                then retry_or (NetworkError "JSONDecodeError")
                else fail (UnexpectedException "ValueError")
            | Some data =>
                match validate_invoice_response data with
                | inr (payment_id, invoice_url) =>
                    let '(st1, saved) :=
                      add_payment st now user_id payment_id amount currency invoice_url in
                    if saved then
                      (st1, inr (mk_invoice payment_id invoice_url amount currency),
                       [Posted (Z.abs amount)])
                    else (st1, inl (Unexpected SaveFailed), [Posted (Z.abs amount)])
                | inl d => fail (Unexpected (InvalidResponse d))
                end
            end
          else if decide (status_code = 401) then fail (Unexpected AuthenticationFailed)
          else if decide (status_code = 403) then fail (Unexpected AccessDenied)
          else if decide (status_code = 429) then retry_or (Unexpected ServiceBusy)
          else if decide (500 ≤ status_code) then retry_or (Unexpected ServiceUnavailable)
          else
            fail (Unexpected
                    (ServiceError status_code
                       (match body with Some d => d !! "message" | None => None end)))
      | HttpTimeout => retry_or RequestTimedOut
      | HttpConnectionError => retry_or CannotConnect
      | HttpRequestException msg => retry_or (NetworkError msg)
      | HttpOtherException msg => fail (UnexpectedException msg)
      end
  end.

Definition create_invoice (st : db) (now : Z) (amount user_id : Z) (currency : string)
    : db * (payment_error + invoice) * list invoice_event :=
  create_invoice_attempts st now amount user_id currency (seq 0 max_retries) 2.

(** How a run that ends with the request of [attempt] ends: with an error
    and the database it was given, or with the invoice of a valid 200
    response that [add_payment] accepted. *)
Definition ends_at (st : db) (now amount user_id : Z) (currency : string)
    (attempt : nat) (r : db * (payment_error + invoice) * list invoice_event) : Prop :=
  (∃ e, r = (st, inl e, [Posted (Z.abs amount)]) ∧ e ≠ RetriesExhausted) ∨
  (∃ data payment_id invoice_url,
     post attempt = HttpResponse 200 (Some data) ∧
     validate_invoice_response data = inr (payment_id, invoice_url) ∧
     (add_payment st now user_id payment_id amount currency invoice_url).2 = true ∧
     r = ((add_payment st now user_id payment_id amount currency invoice_url).1,
          inr (mk_invoice payment_id invoice_url amount currency),
          [Posted (Z.abs amount)])).

(** Which outcomes of a request are answered by a retry. *)
Definition retryable (o : http_outcome) : Prop :=
  match o with
  | HttpResponse status_code body =>
      status_code = 429 ∨ (status_code ≠ 200 ∧ 500 ≤ status_code) ∨
      (status_code = 200 ∧ body = None ∧ json_error_is_request_exception = true)
  | HttpTimeout | HttpConnectionError | HttpRequestException _ => True
  | HttpOtherException _ => False
  end.

End CreateInvoice.

(** ** webhook.py *)

Section WebhookEndpoint.

Variable WEBHOOK_SECRET : string.
Variable hmac_sha512_hex : string → string → string.
Variable json_loads : string → option json_object.

(** [nowpayments_webhook]: the request is its body and its
    [x-nowpayments-sig] header; the result is the HTTP status code. *)
Definition nowpayments_webhook (st : db) (now : Z) (payload : string)
    (signature_header : option string) : db * Z * list event :=
  if decide (payload = "") then (st, 400, [])
  else
    match signature_header with
    | None => (st, 400, [])
    | Some signature =>
        if decide (signature = "") then (st, 400, [])
        else
          let '(st1, ok, sent) :=
            process_webhook WEBHOOK_SECRET hmac_sha512_hex json_loads st now
              payload signature in
          if ok then (st1, 200, sent) else (st1, 400, sent)
    end.

End WebhookEndpoint.

(** ** Further code of admin.py *)

Section Admin.

(** [config.ADMIN_USER_ID]. *)
Variable ADMIN_USER_ID : Z.

Definition is_admin (user_id : Z) : bool := bool_decide (user_id = ADMIN_USER_ID).

(** [update_user_balance]: the id that is checked is the id whose balance
    is updated. *)
Definition update_user_balance (st : db) (now : Z) (user_id amount : Z) : db * bool :=
  if negb (is_admin user_id) then (st, false)
  else update_balance st now user_id amount.

End Admin.

(** ** Further code of bot.py *)

Inductive withdraw_reply :=
  | WithdrawNoUserId
  | WithdrawAmountRejected (e : amount_error)
  | WithdrawInsufficientBalance
  | WithdrawSubmitted (amount : Z)
  | WithdrawFailed.

Inductive dialog_reply :=
  | AskSellerUsername
  | AskDescription (seller : string)
  | AskValidUsername
  | AskAmount (descr : string) (balance : Z).

Section BotDialogs.

Variable parse_float : string → option Z.

(** [handle_withdraw]: the reply and whether the handler registered itself
    for the next message. *)
Definition handle_withdraw (st : db) (now : Z) (msg : message)
    : db * withdraw_reply * bool :=
  match from_user_id msg with
  | None => (st, WithdrawNoUserId, false)
  | Some user_id =>
      match validate_amount parse_float (text msg) 5 None with
      | inl e => (st, WithdrawAmountRejected e, true)
      | inr amount =>
          let '(st1, user) := get_user st now user_id in
          if decide (amount > balance user) then (st1, WithdrawInsufficientBalance, false)
          else
            let '(st2, debited) := update_balance st1 now user_id (- amount) in
            if debited then
              let '(st3, added) := add_withdrawal_history st2 now user_id amount in
              if added then (st3, WithdrawSubmitted amount, false)
              else (st3, WithdrawFailed, false)
            else (st2, WithdrawFailed, false)
      end
  end.

(** The [new_deal] branch of the callback handler. *)
Definition start_new_deal (bs : bot_state) (user_id : Z) : bot_state * dialog_reply :=
  (mk_bot (store bs) (<[user_id := ∅]> (deal_creation_state bs)), AskSellerUsername).

(** The [cancel_deal] branch of the callback handler. *)
Definition cancel_deal (bs : bot_state) (user_id : Z) : bot_state :=
  mk_bot (store bs) (delete user_id (deal_creation_state bs)).

(** [handle_seller_username]: a text starting with "@" is stored under
    "seller_username" in the entry of the sender, which must exist. *)
Definition handle_seller_username (bs : bot_state) (msg : message)
    : bot_state * option dialog_reply * handler_exit :=
  match from_user_id msg with
  | None => (bs, None, Raised "AttributeError")
  | Some user_id =>
      if String.prefix "@" (text msg) then
        match deal_creation_state bs !! user_id with
        | None => (bs, None, Raised "KeyError")
        | Some deal_data =>
            (mk_bot (store bs)
               (<[user_id := <["seller_username" := text msg]> deal_data]>
                  (deal_creation_state bs)),
             Some (AskDescription (text msg)), Returned)
        end
      else (bs, Some AskValidUsername, Returned)
  end.

(** [handle_deal_description]: the text is stored under "description". *)
Definition handle_deal_description (bs : bot_state) (now : Z) (msg : message)
    : bot_state * option dialog_reply * handler_exit :=
  match from_user_id msg with
  | None => (bs, None, Raised "AttributeError")
  | Some user_id =>
      match deal_creation_state bs !! user_id with
      | None => (bs, None, Raised "KeyError")
      | Some deal_data =>
          let '(st1, user) := get_user (store bs) now user_id in
          (mk_bot st1
             (<[user_id := <["description" := text msg]> deal_data]>
                (deal_creation_state bs)),
           Some (AskAmount (text msg) (balance user)), Returned)
      end
  end.

End BotDialogs.

(** ** Notions used in the statements *)

(** The statuses after which the specification allows no further transition
    of a payment. *)
Definition terminal_statuses : list string :=
  ["confirmed"; "failed"; "cancelled"; "expired"].

(** A run of [update_balance] calls on one user, one after the other.  Each
    call is given as (time, delta); the run records, per call, the database
    before it, the delta, the returned flag and the database after it. *)
Record call_obs := mk_obs {
  obs_before : db;
  obs_delta : Z;
  obs_ok : bool;
  obs_after : db
}.

Fixpoint adjust_run (st : db) (user_id : Z) (calls : list (Z * Z)) : list call_obs :=
  match calls with
  | [] => []
  | (now, delta) :: rest =>
      let r := update_balance st now user_id delta in
      mk_obs st delta r.2 r.1 :: adjust_run r.1 user_id rest
  end.


Fixpoint sum_successful (run : list call_obs) : Z :=
  match run with
  | [] => 0
  | o :: rest => (if obs_ok o then obs_delta o else 0) + sum_successful rest
  end.

(** The deltas of the successful calls added to [initial] one at a time, in
    call order: what the calls store, each rounding its own addition in the
    float ledger. *)
Definition apply_successful (initial : Z) (run : list call_obs) : Z :=
  foldl (λ b o, if obs_ok o then b + obs_delta o else b) initial run.








(** The state after a first 'confirmed' for the payment [p] stored under
    [payment_id]: the row is 'confirmed' and the owner is credited. *)
Definition confirmed_and_credited (st : db) (now : Z) (payment_id : string)
    (p : payment_row) : db :=
  (update_balance
     (set_payments st
        (<[payment_id :=
             mk_payment (p_user_id p) (p_amount p) (p_currency p) "confirmed"
               (p_invoice_url p) (p_created_at p) now]> (payments st)))
     now (p_user_id p) (p_amount p)).1.

(** A processor that reports every payment as 'confirmed', in the current
    field naming. *)
Definition confirming_processor (payment_id : string) : option json_object :=
  Some {[ "id" := payment_id; "status" := "confirmed" ]}.

(** ** Scenarios *)

(** A ledger with one account holding 10. *)
Definition demo_account : user_row := mk_user 10 0 0 0.
Definition demo_ledger : db := set_users empty_db {[ 7 := demo_account ]}.

(** A store with one payment already 'confirmed'. *)
Definition settled_payment : payment_row :=
  mk_payment 7 50 "usdttrc20" "confirmed" "https://invoice/1" 0 10.
Definition settled_store : db :=
  set_payments empty_db {[ "pay_1" := settled_payment ]}.


(** The scenario of a duplicate webhook: balance 0, a payment of 50
    confirmed twice. *)
Definition demo_notification : json_object :=
  {[ "payment_id" := "pay_1"; "payment_status" := "confirmed" ]}.
Definition demo_loads (payload : string) : option json_object :=
  if decide (payload = "body-1") then Some demo_notification else None.
Definition demo_hmac (key payload : string) : string := key +:+ ":" +:+ payload.
Definition pending_payment : payment_row :=
  mk_payment 7 50 "usdttrc20" "pending" "https://invoice/1" 0 0.
Definition pending_store : db :=
  mk_db {[ 7 := mk_user 0 0 0 0 ]} [] [] {[ "pay_1" := pending_payment ]}.

(** Two notifications for the same payment, one in each field naming. *)
Definition status_loads (payload : string) : option json_object :=
  if decide (payload = "confirmed-body") then
    Some {[ "payment_id" := "pay_1"; "payment_status" := "confirmed" ]}
  else if decide (payload = "failed-body") then
    Some {[ "id" := "pay_1"; "status" := "failed" ]}
  else None.

(** The scenario of a stale payment: created at time 0, polled 25 hours
    later, with a processor that cannot be reached. *)
Definition unreachable_processor (payment_id : string) : option json_object := None.

(** A store with one 'pending' and one 'confirming' payment. *)
Definition confirming_payment : payment_row :=
  mk_payment 8 30 "usdttrc20" "confirming" "https://invoice/2" 5 9.
Definition mixed_store : db :=
  mk_db ∅ [] [] {[ "pay_1" := pending_payment; "pay_2" := confirming_payment ]}.

(** A pending and an approved withdrawal request of the same user. *)
Definition demo_withdrawals : db :=
  mk_db {[ 7 := mk_user 20 0 0 0 ]}
    [mk_withdrawal 7 30 "pending" None 1; mk_withdrawal 7 5 "approved" None 2]
    [] ∅.

(** The scenario of an escrow deal: a buyer with balance 100 enters a deal
    of 40, the deal is put in dispute, and the admin resolves it with
    'pay_seller'. *)
Definition demo_parse (text : string) : option Z :=
  if decide (text = "40") then Some 40
  else if decide (text = "400") then Some 400
  else None.
Definition demo_draft : json_object :=
  {[ "seller_username" := "@seller"; "description" := "Logo design" ]}.
Definition demo_bot : bot_state :=
  mk_bot (mk_db {[ 7 := mk_user 100 0 0 0 ]} [] [] ∅) {[ 7 := demo_draft ]}.
Definition demo_deal_entered : bot_state :=
  (handle_deal_amount demo_parse 1000 demo_bot 10 (mk_message (Some 7) 7 "40")).1.1.
Definition demo_deal_disputed : db :=
  (update_deal_status (store demo_deal_entered) 20 1 "disputed" None).1.

(** * Properties *)

(** ** The ledger: [update_balance] *)

Lemma update_balance_tables st now user_id amount :
  let st' := (update_balance st now user_id amount).1 in
  withdrawal_history st' = withdrawal_history st ∧
  deals st' = deals st ∧ payments st' = payments st.
Proof.
  unfold update_balance. destruct (users st !! user_id) as [u|]; simpl; [|done].
  destruct (decide (balance u + amount < 0)); done.
Qed.

Lemma update_balance_other st now user_id amount other :
  other ≠ user_id →
  users (update_balance st now user_id amount).1 !! other = users st !! other.
Proof.
  intros Hne. unfold update_balance.
  destruct (users st !! user_id) as [u|]; simpl.
  - destruct (decide (balance u + amount < 0)); simpl; [done|].
    by rewrite lookup_insert_ne.
  - by rewrite lookup_insert_ne.
Qed.


Lemma update_balance_missing st now user_id amount :
  users st !! user_id = None →
  update_balance st now user_id amount =
    (set_users st (<[user_id := mk_user amount 0 now now]> (users st)), true).
Proof. intros Hu. unfold update_balance. by rewrite Hu. Qed.

(** Whenever the new balance is not negative, the balance shown for the
    user moves by exactly the delta, whether the account existed or not. *)
Lemma update_balance_credit st now user_id amount :
  0 ≤ balance_of st user_id + amount →
  let r := update_balance st now user_id amount in
  r.2 = true ∧ balance_of r.1 user_id = balance_of st user_id + amount.
Proof.
  unfold balance_of, update_balance.
  destruct (users st !! user_id) as [u|] eqn:Hu; simpl; intros Hge.
  - destruct (decide (balance u + amount < 0)); [lia|]. simpl.
    by rewrite lookup_insert_eq.
  - by rewrite lookup_insert_eq.
Qed.

Lemma balance_of_other st now user_id amount other :
  other ≠ user_id →
  balance_of (update_balance st now user_id amount).1 other = balance_of st other.
Proof.
  intros Hne. unfold balance_of. by rewrite update_balance_other.
Qed.





(** In exact arithmetic the deltas added one at a time give the initial
    balance plus their sum.  Binary floating point rounds each addition, so
    for the float ledger the two sides can differ in the last digits. *)
Lemma apply_successful_sum initial run :
  apply_successful initial run = initial + sum_successful run.
Proof.
  unfold apply_successful. revert initial.
  induction run as [|o run IH]; intros initial; simpl; [lia|].
  rewrite IH. destruct (obs_ok o); lia.
Qed.


Example ledger_run_example :
  let run := adjust_run demo_ledger 7 [(1, 5); (2, -20); (3, -15); (4, 2)] in
  obs_ok <$> run = [true; false; true; true] ∧
  (λ o, balance_of (obs_after o) 7) <$> run = [15; 15; 0; 2].
Proof. vm_compute. done. Qed.

(** C6. [update_balance] on a user id without an account and with a negative
    delta: the call reports success and the account exists afterwards with
    the negative delta as its balance. *)
Theorem update_balance_negative_delta_creates_account :
  update_balance empty_db 100 7 (-5) =
    (set_users empty_db {[ 7 := mk_user (-5) 0 100 100 ]}, true) ∧
  users (update_balance empty_db 100 7 (-5)).1 !! 7 = Some (mk_user (-5) 0 100 100) ∧
  balance_of (update_balance empty_db 100 7 (-5)).1 7 = -5.
Proof. vm_compute. done. Qed.

(** The same at every database and delta: without an account the sign of
    the delta is never looked at. *)
Lemma update_balance_missing_any_delta st now user_id amount :
  users st !! user_id = None →
  (update_balance st now user_id amount).2 = true ∧
  balance_of (update_balance st now user_id amount).1 user_id = amount.
Proof.
  intros Hu. rewrite update_balance_missing by done. simpl.
  unfold balance_of. simpl. by rewrite lookup_insert_eq.
Qed.

(** ** The payment record store: [add_payment], [update_payment_status] *)

Lemma update_payment_status_invalid st now payment_id status :
  status ∉ valid_statuses →
  update_payment_status st now payment_id status = (st, false).
Proof.
  intros Hbad. unfold update_payment_status.
  destruct (decide (payment_id = "")); [done|].
  destruct (decide (status = "")); [done|].
  destruct (decide (status ∈ valid_statuses)); [contradiction|done].
Qed.

(** The result of [update_payment_status] on a stored payment, by cases on
    the requested status. *)
Lemma update_payment_status_stored st now payment_id status p :
  payment_id ≠ "" →
  payments st !! payment_id = Some p →
  status ∈ valid_statuses →
  update_payment_status st now payment_id status =
    if decide (p_status p = status) then (st, true)
    else
      (set_payments st
         (<[payment_id :=
              mk_payment (p_user_id p) (p_amount p) (p_currency p) status
                (p_invoice_url p) (p_created_at p) now]> (payments st)),
       true).
Proof.
  intros Hid Hp Hvalid. unfold update_payment_status.
  destruct (decide (payment_id = "")); [done|].
  destruct (decide (status = "")) as [->|_].
  { exfalso. unfold valid_statuses in Hvalid.
    rewrite !elem_of_cons, elem_of_nil in Hvalid.
    destruct Hvalid as [H|[H|[H|[H|[H|[H|[]]]]]]]; discriminate H. }
  destruct (decide (status ∈ valid_statuses)); [|contradiction].
  by rewrite Hp.
Qed.



(** What [cleanup_old_data] does to one payment row. *)
Lemma archive_payment_status thirty_days_ago p :
  archive_payment thirty_days_ago p = p ∨
  (p_status p ∈ ["confirmed"; "failed"] ∧ p_updated_at p < thirty_days_ago ∧
   p_status (archive_payment thirty_days_ago p) = "archived").
Proof.
  unfold archive_payment. case_decide as H; [|by left].
  right. by destruct H.
Qed.







Example update_payment_status_rejects_unknown :
  update_payment_status
    (set_payments empty_db {[ "pay_1" := mk_payment 7 50 "usdttrc20" "pending" "url" 0 0 ]})
    5 "pay_1" "finished"
  = (set_payments empty_db {[ "pay_1" := mk_payment 7 50 "usdttrc20" "pending" "url" 0 0 ]},
     false).
Proof. vm_compute. done. Qed.

Lemma terminal_statuses_valid status :
  status ∈ terminal_statuses → status ∈ valid_statuses.
Proof.
  unfold terminal_statuses, valid_statuses.
  rewrite !elem_of_cons, !elem_of_nil. tauto.
Qed.

(** C3, as stated, fails: a payment stored as 'confirmed' and updated to
    'failed' has its status and its timestamp overwritten, and the call
    returns true. *)
Lemma terminal_status_overwritten :
  payments settled_store !! "pay_1" = Some settled_payment ∧
  p_status settled_payment ∈ terminal_statuses ∧
  update_payment_status settled_store 20 "pay_1" "failed" =
    (set_payments empty_db
       {[ "pay_1" := mk_payment 7 50 "usdttrc20" "failed" "https://invoice/1" 0 20 ]},
     true) ∧
  ¬ (update_payment_status settled_store 20 "pay_1" "failed" = (settled_store, false)).
Proof.
  split; [done|]. split.
  { unfold terminal_statuses. simpl. rewrite !elem_of_cons. by left. }
  split; [by vm_compute|].
  intros H. by vm_compute in H.
Qed.

(** C3, amended. On a payment whose stored status is terminal,
    [update_payment_status] with the identical status returns success and
    the database unchanged; with a different one of the six statuses it
    overwrites the stored status and the update timestamp and returns true;
    with any other string it returns false and the database unchanged. *)
Theorem update_payment_status_on_terminal st now payment_id p status :
  payment_id ≠ "" →
  payments st !! payment_id = Some p →
  p_status p ∈ terminal_statuses →
  (status = p_status p →
   update_payment_status st now payment_id status = (st, true)) ∧
  (status ≠ p_status p → status ∈ valid_statuses →
   update_payment_status st now payment_id status =
     (set_payments st
        (<[payment_id :=
             mk_payment (p_user_id p) (p_amount p) (p_currency p) status
               (p_invoice_url p) (p_created_at p) now]> (payments st)),
      true)) ∧
  (status ∉ valid_statuses →
   update_payment_status st now payment_id status = (st, false)).
Proof.
  intros Hid Hp Hterm. split; [|split].
  - intros ->.
    rewrite (update_payment_status_stored st now payment_id _ p) by
      (try done; by apply terminal_statuses_valid).
    by rewrite decide_True.
  - intros Hne Hvalid.
    rewrite (update_payment_status_stored st now payment_id _ p) by done.
    by rewrite decide_False.
  - apply update_payment_status_invalid.
Qed.

Lemma update_payment_status_on_terminal_witness :
  ("confirmed" = p_status settled_payment →
   update_payment_status settled_store 20 "pay_1" "confirmed" = (settled_store, true)) ∧
  ("confirmed" ≠ p_status settled_payment → "confirmed" ∈ valid_statuses →
   update_payment_status settled_store 20 "pay_1" "confirmed" =
     (set_payments settled_store
        (<["pay_1" :=
             mk_payment (p_user_id settled_payment) (p_amount settled_payment)
               (p_currency settled_payment) "confirmed"
               (p_invoice_url settled_payment) (p_created_at settled_payment) 20]>
           (payments settled_store)),
      true)) ∧
  ("confirmed" ∉ valid_statuses →
   update_payment_status settled_store 20 "pay_1" "confirmed" = (settled_store, false)).
Proof.
  apply (update_payment_status_on_terminal settled_store 20 "pay_1" settled_payment).
  - discriminate.
  - reflexivity.
  - unfold terminal_statuses. simpl. rewrite !elem_of_cons. by left.
Defined.

(** ** The reconciler: [process_webhook] *)

Lemma truthy_Some s : truthy (Some s) = true ↔ s ≠ "".
Proof. simpl. apply bool_decide_eq_true. Qed.

Lemma extract_payment_id_truthy data payment_id :
  extract_payment_id data = Some payment_id → payment_id ≠ "".
Proof.
  unfold extract_payment_id.
  destruct (truthy (py_or _ _)) eqn:E; [|done].
  intros H. rewrite H in E. by apply truthy_Some.
Qed.

Lemma extract_payment_status_truthy data status :
  extract_payment_status data = Some status → status ≠ "".
Proof.
  unfold extract_payment_status.
  destruct (truthy (py_or _ _)) eqn:E; [|done].
  intros H. rewrite H in E. by apply truthy_Some.
Qed.

Lemma validate_webhook_payload_ok data payment_id status :
  extract_payment_id data = Some payment_id →
  extract_payment_status data = Some status →
  validate_webhook_payload data = (true, Some payment_id, Some status).
Proof.
  intros Hid Hst. unfold validate_webhook_payload. rewrite Hid, Hst.
  apply extract_payment_id_truthy in Hid.
  apply extract_payment_status_truthy in Hst.
  apply truthy_Some in Hid, Hst. by rewrite Hid, Hst.
Qed.

Section Reconciler.

Variable WEBHOOK_SECRET : string.
Variable hmac_sha512_hex : string → string → string.
Variable json_loads : string → option json_object.

Local Abbreviation process := (process_webhook WEBHOOK_SECRET hmac_sha512_hex json_loads).

(** C1. A payment stored as 'pending' with amount A, owned by a user whose
    balance is 0: the same authenticated 'confirmed' notification
    processed twice in sequence leaves the balance at A.  The first call
    marks the payment 'confirmed', credits A and reports success; the
    second reports success, returns the database it was given and sends
    nothing.  The stored row is a row as [add_payment] writes it: a
    non-zero owner and a positive amount. *)
Theorem duplicate_confirmed_webhook_credits_once
    st now1 now2 payload signature data payment_id p :
  verify_webhook_signature WEBHOOK_SECRET hmac_sha512_hex payload signature = true →
  json_loads payload = Some data →
  extract_payment_id data = Some payment_id →
  extract_payment_status data = Some "confirmed" →
  payments st !! payment_id = Some p →
  p_status p = "pending" →
  p_user_id p ≠ 0 →
  0 < p_amount p →
  balance_of st (p_user_id p) = 0 →
  let first := process st now1 payload signature in
  let second := process first.1.1 now2 payload signature in
  first.1.2 = true ∧
  first.2 = [PaymentConfirmedMessage (p_user_id p) (p_amount p) payment_id] ∧
  (p_status <$> payments first.1.1 !! payment_id) = Some "confirmed" ∧
  balance_of first.1.1 (p_user_id p) = p_amount p ∧
  second = (first.1.1, true, []) ∧
  balance_of second.1.1 (p_user_id p) = p_amount p.
Proof.
  intros Hsig Hload Hid Hstatus Hp Hpending Huid Hamt Hbal.
  pose proof (extract_payment_id_truthy _ _ Hid) as Hne.
  assert (Hfirst : ∃ st1,
    process st now1 payload signature =
      (st1, true, [PaymentConfirmedMessage (p_user_id p) (p_amount p) payment_id]) ∧
    (p_status <$> payments st1 !! payment_id) = Some "confirmed" ∧
    balance_of st1 (p_user_id p) = p_amount p).
  { unfold process_webhook. rewrite Hsig, Hload. simpl.
    rewrite (validate_webhook_payload_ok _ _ _ Hid Hstatus).
    unfold get_payment_by_id. rewrite Hp.
    rewrite decide_False by (rewrite Hpending; discriminate).
    rewrite (update_payment_status_stored st now1 payment_id "confirmed" p)
      by (try done; unfold valid_statuses; rewrite !elem_of_cons; tauto).
    rewrite decide_False by (rewrite Hpending; discriminate).
    simpl.
    rewrite !bool_decide_eq_true_2 by (done || lia). simpl.
    set (st1 := set_payments st _).
    assert (Hb1 : balance_of st1 (p_user_id p) = 0) by done.
    destruct (update_balance_credit st1 now1 (p_user_id p) (p_amount p)) as [Hok Hnew];
      [lia|].
    pose proof (update_balance_tables st1 now1 (p_user_id p) (p_amount p)) as (_ & _ & Hpay).
    destruct (update_balance st1 now1 (p_user_id p) (p_amount p)) as [st2 ok].
    simpl in *. subst ok. exists st2. split; [done|]. split; [|lia].
    rewrite Hpay. subst st1. simpl. by rewrite lookup_insert_eq. }
  destruct Hfirst as (st1 & Hrun & Hstored & Hcredit).
  assert (Hsecond : process st1 now2 payload signature = (st1, true, [])).
  { unfold process_webhook. rewrite Hsig, Hload. simpl.
    rewrite (validate_webhook_payload_ok _ _ _ Hid Hstatus).
    unfold get_payment_by_id.
    destruct (payments st1 !! payment_id) as [p1|] eqn:Hp1; [|done].
    simpl in Hstored. injection Hstored as Hst1.
    by rewrite decide_True. }
  simpl. rewrite Hrun. simpl. rewrite Hsecond. done.
Qed.

End Reconciler.

Lemma duplicate_confirmed_webhook_witness :
  let first :=
    process_webhook "secret" demo_hmac demo_loads pending_store 100
      "body-1" "secret:body-1" in
  let second :=
    process_webhook "secret" demo_hmac demo_loads first.1.1 200
      "body-1" "secret:body-1" in
  first.1.2 = true ∧
  first.2 = [PaymentConfirmedMessage 7 50 "pay_1"] ∧
  (p_status <$> payments first.1.1 !! "pay_1") = Some "confirmed" ∧
  balance_of first.1.1 7 = 50 ∧
  second = (first.1.1, true, []) ∧
  balance_of second.1.1 7 = 50.
Proof.
  apply (duplicate_confirmed_webhook_credits_once "secret" demo_hmac demo_loads
           pending_store 100 200 "body-1" "secret:body-1" demo_notification
           "pay_1" pending_payment);
    try reflexivity; try discriminate.
Defined.

(** Without a guard on settled payments a status that flips back lets the
    same payment be credited again: 'confirmed', then 'failed', then
    'confirmed' leaves a balance of 100 for a payment of 50. *)
Example status_flip_credits_twice :
  let step st now payload := (process_webhook "" demo_hmac status_loads st now payload "").1.1 in
  let st1 := step pending_store 1 "confirmed-body" in
  let st2 := step st1 2 "failed-body" in
  let st3 := step st2 3 "confirmed-body" in
  balance_of st1 7 = 50 ∧ balance_of st2 7 = 50 ∧ balance_of st3 7 = 100.
Proof. vm_compute. done. Qed.

(** ** The poller: [_check_single_payment], [_check_pending_payments] *)

Lemma elem_of_get_pending_payments st payment_id p :
  (payment_id, p) ∈ get_pending_payments st ↔
  payments st !! payment_id = Some p ∧ p_status p = "pending".
Proof.
  unfold get_pending_payments.
  rewrite merge_sort_Permutation, list_elem_of_filter, elem_of_map_to_list.
  simpl. tauto.
Qed.

Lemma elem_of_examined_payments st payment_id :
  payment_id ∈ examined_payments st ↔
  ∃ p, payments st !! payment_id = Some p ∧ p_status p = "pending".
Proof.
  unfold examined_payments. rewrite list_elem_of_fmap. split.
  - intros ([pid p] & -> & Hin). exists p. by apply elem_of_get_pending_payments.
  - intros (p & Hp). exists (payment_id, p). split; [done|].
    by apply elem_of_get_pending_payments.
Qed.

Lemma NoDup_examined_payments st : NoDup (examined_payments st).
Proof.
  unfold examined_payments. apply NoDup_fmap_fst.
  - intros payment_id p1 p2 [H1 _]%elem_of_get_pending_payments
      [H2 _]%elem_of_get_pending_payments. congruence.
  - unfold get_pending_payments. rewrite merge_sort_Permutation.
    eapply sublist_NoDup; [apply NoDup_map_to_list|apply sublist_filter].
Qed.

Lemma update_payment_status_other st now payment_id status other :
  other ≠ payment_id →
  payments (update_payment_status st now payment_id status).1 !! other =
    payments st !! other.
Proof.
  intros Hne. unfold update_payment_status.
  repeat (case_decide; [done|]). case_decide; [|done].
  destruct (payments st !! payment_id) as [p|]; [|done]. simpl.
  case_decide; [done|]. simpl. by rewrite lookup_insert_ne.
Qed.

Lemma update_payment_status_tables st now payment_id status :
  let st' := (update_payment_status st now payment_id status).1 in
  users st' = users st ∧ withdrawal_history st' = withdrawal_history st ∧
  deals st' = deals st.
Proof.
  unfold update_payment_status.
  repeat (case_decide; [done|]). case_decide; [|done].
  destruct (payments st !! payment_id) as [p|]; [|done]. simpl.
  by case_decide.
Qed.

Section Poller.

Variable verify_payment : string → option json_object.

Lemma _process_confirmed_payment_events st now payment e :
  e ∈ (_process_confirmed_payment st now payment).2 →
  ∃ user_id amount, e = PaymentConfirmedMessage user_id amount payment.1.
Proof.
  unfold _process_confirmed_payment.
  destruct (_ && _); simpl; [|by intros ?%elem_of_nil].
  destruct (update_balance _ _ _ _) as [st1 []]; simpl.
  - intros ->%list_elem_of_singleton. eauto.
  - by intros ?%elem_of_nil.
Qed.

(** A check of one payment queries the processor about that payment
    only. *)
Lemma _check_single_payment_queries st now payment payment_id :
  RemoteStatusQuery payment_id ∈ (_check_single_payment verify_payment st now payment).2 →
  payment_id = payment.1.
Proof.
  unfold _check_single_payment.
  assert (Hone : ∀ l : list event,
    l = [RemoteStatusQuery payment.1] →
    RemoteStatusQuery payment_id ∈ l → payment_id = payment.1).
  { intros l -> Hin. apply list_elem_of_singleton in Hin. congruence. }
  repeat case_decide; simpl; try by intros ?%elem_of_nil.
  destruct (verify_payment payment.1) as [info|]; [|by apply Hone].
  case_decide; [by apply Hone|].
  destruct (extract_payment_status info) as [new_status|]; [|by apply Hone].
  case_decide; [|by apply Hone].
  case_decide; [|by apply Hone].
  pose proof (_process_confirmed_payment_events
    (update_payment_status st now payment.1 new_status).1 now payment) as Hev.
  destruct (_process_confirmed_payment _ _ _) as [st2 sent]. simpl in *.
  intros [Heq|Hin]%elem_of_cons; [congruence|].
  destruct (Hev _ Hin) as (? & ? & ?). discriminate.
Qed.

Lemma check_each_queries pending : ∀ st now payment_id,
  RemoteStatusQuery payment_id ∈ (check_each verify_payment st now pending).2 →
  payment_id ∈ pending.*1.
Proof.
  induction pending as [|payment rest IH]; intros st now payment_id; simpl.
  - by intros ?%elem_of_nil.
  - pose proof (_check_single_payment_queries st now payment payment_id) as Hhd.
    destruct (_check_single_payment _ _ _ _) as [st1 ev1].
    specialize (IH st1 now payment_id).
    destruct (check_each _ _ _ _) as [st2 ev2]. simpl in *.
    intros [Hin|Hin]%elem_of_app.
    + rewrite (Hhd Hin). apply elem_of_cons. by left.
    + apply elem_of_cons. right. by apply IH.
Qed.

Lemma _process_confirmed_payment_payments st now payment :
  payments (_process_confirmed_payment st now payment).1 = payments st.
Proof.
  unfold _process_confirmed_payment. destruct (_ && _); [|done].
  pose proof (update_balance_tables st now (p_user_id payment.2) (p_amount payment.2))
    as (_ & _ & Hp).
  by destruct (update_balance _ _ _ _) as [st1 []].
Qed.

(** A check of one payment leaves the rows of all other payments alone. *)
Lemma _check_single_payment_other st now payment other :
  other ≠ payment.1 →
  payments (_check_single_payment verify_payment st now payment).1 !! other =
    payments st !! other.
Proof.
  intros Hne. unfold _check_single_payment.
  case_decide; [done|]. case_decide; simpl.
  { by apply update_payment_status_other. }
  destruct (verify_payment payment.1) as [info|]; [|done].
  case_decide; [done|].
  destruct (extract_payment_status info) as [new_status|]; [|done].
  case_decide; [|done].
  case_decide; simpl.
  - pose proof (_process_confirmed_payment_payments
      (update_payment_status st now payment.1 new_status).1 now payment) as Hp.
    destruct (_process_confirmed_payment _ _ _) as [st2 sent]. simpl in *.
    rewrite Hp. by apply update_payment_status_other.
  - by apply update_payment_status_other.
Qed.

Lemma check_each_other pending : ∀ st now other,
  other ∉ pending.*1 →
  payments (check_each verify_payment st now pending).1 !! other =
    payments st !! other.
Proof.
  induction pending as [|payment rest IH]; intros st now other Hnot; [done|].
  simpl. rewrite fmap_cons, not_elem_of_cons in Hnot. destruct Hnot as [Hne Hrest].
  pose proof (_check_single_payment_other st now payment other Hne) as Hhd.
  destruct (_check_single_payment _ _ _ _) as [st1 ev1].
  specialize (IH st1 now other Hrest).
  destruct (check_each _ _ _ _) as [st2 ev2]. simpl in *. congruence.
Qed.

(** The check of a stale 'pending' payment, as an equation. *)
Lemma stale_check_result st now payment_id p :
  payment_id ≠ "" →
  payments st !! payment_id = Some p →
  p_status p = "pending" →
  now - p_created_at p > hours_24 →
  _check_single_payment verify_payment st now (payment_id, p) =
    (set_payments st
       (<[payment_id :=
            mk_payment (p_user_id p) (p_amount p) (p_currency p) "expired"
              (p_invoice_url p) (p_created_at p) now]> (payments st)),
     []).
Proof.
  intros Hid Hp Hpending Hold. unfold _check_single_payment. simpl.
  rewrite decide_False by done. rewrite decide_True by done.
  rewrite (update_payment_status_stored st now payment_id "expired" p)
    by (try done; unfold valid_statuses; rewrite !elem_of_cons; tauto).
  by rewrite decide_False by (rewrite Hpending; discriminate).
Qed.

(** In a loop over rows with distinct ids, fetched while the stale payment
    was stored as [p], the payment ends up 'expired' and is never asked
    about. *)
Lemma check_each_stale pending : ∀ st now payment_id p,
  NoDup pending.*1 →
  (payment_id, p) ∈ pending →
  payment_id ≠ "" →
  payments st !! payment_id = Some p →
  p_status p = "pending" →
  now - p_created_at p > hours_24 →
  let r := check_each verify_payment st now pending in
  payments r.1 !! payment_id =
    Some (mk_payment (p_user_id p) (p_amount p) (p_currency p) "expired"
            (p_invoice_url p) (p_created_at p) now) ∧
  (RemoteStatusQuery payment_id ∉ r.2).
Proof.
  induction pending as [|payment rest IH];
    intros st now payment_id p Hnd Hin Hid Hp Hpending Hold.
  { by apply elem_of_nil in Hin. }
  rewrite fmap_cons in Hnd. apply NoDup_cons in Hnd as [Hfresh Hnd].
  simpl. apply elem_of_cons in Hin as [<-|Hin].
  - rewrite (stale_check_result st now payment_id p) by done.
    pose proof (check_each_other rest
      (set_payments st
         (<[payment_id :=
              mk_payment (p_user_id p) (p_amount p) (p_currency p) "expired"
                (p_invoice_url p) (p_created_at p) now]> (payments st)))
      now payment_id Hfresh) as Hkeep.
    pose proof (check_each_queries rest
      (set_payments st
         (<[payment_id :=
              mk_payment (p_user_id p) (p_amount p) (p_currency p) "expired"
                (p_invoice_url p) (p_created_at p) now]> (payments st)))
      now payment_id) as Hq.
    destruct (check_each _ _ _ _) as [st2 ev2]. simpl in *.
    split; [|by intros ?%Hq].
    rewrite Hkeep. by rewrite lookup_insert_eq.
  - assert (Hne : payment_id ≠ payment.1).
    { intros ->. apply Hfresh. by apply (list_elem_of_fmap_2 fst) in Hin. }
    pose proof (_check_single_payment_other st now payment payment_id Hne) as Hhd.
    pose proof (_check_single_payment_queries st now payment payment_id) as Hq.
    destruct (_check_single_payment _ _ _ _) as [st1 ev1]. simpl in *.
    rewrite <- Hhd in Hp.
    specialize (IH st1 now payment_id p Hnd Hin Hid Hp Hpending Hold).
    destruct (check_each _ _ _ _) as [st2 ev2]. simpl in *.
    destruct IH as [Hrow Hno]. split; [done|].
    intros [H1|H2]%elem_of_app; [by apply Hne, Hq|by apply Hno].
Qed.

(** C8. A stored payment in status 'pending' created more than 24 hours
    before the poll time: the check marks it 'expired', stamps it with the
    poll time, sends no query to the processor and no message, and leaves
    every other table, the users among them, as it was.  The payment is
    among those a cycle fetches, and after a whole cycle it is 'expired'
    without the processor having been asked about it.  Nothing depends on
    what the processor would have answered. *)
Theorem stale_pending_payment_expires st now payment_id p :
  payment_id ≠ "" →
  payments st !! payment_id = Some p →
  p_status p = "pending" →
  now - p_created_at p > hours_24 →
  let expired :=
    mk_payment (p_user_id p) (p_amount p) (p_currency p) "expired"
      (p_invoice_url p) (p_created_at p) now in
  let r := _check_single_payment verify_payment st now (payment_id, p) in
  let cycle := _check_pending_payments verify_payment st now in
  r.2 = [] ∧
  payments r.1 !! payment_id = Some expired ∧
  users r.1 = users st ∧
  withdrawal_history r.1 = withdrawal_history st ∧
  deals r.1 = deals st ∧
  (∀ other, other ≠ payment_id → payments r.1 !! other = payments st !! other) ∧
  (payment_id, p) ∈ get_pending_payments st ∧
  payments cycle.1 !! payment_id = Some expired ∧
  (RemoteStatusQuery payment_id ∉ cycle.2).
Proof.
  intros Hid Hp Hpending Hold. simpl.
  rewrite (stale_check_result st now payment_id p) by done. simpl.
  rewrite lookup_insert_eq.
  assert (Hin : (payment_id, p) ∈ get_pending_payments st)
    by (by apply elem_of_get_pending_payments).
  destruct (check_each_stale (get_pending_payments st) st now payment_id p
              (NoDup_examined_payments st) Hin Hid Hp Hpending Hold)
    as [Hrow Hquiet].
  split; [done|]. split; [done|]. split; [done|]. split; [done|].
  split; [done|]. split; [|done].
  intros other Hne. by rewrite lookup_insert_ne.
Qed.

(** A check that asks the processor is the check of a payment with an id
    that is at most 24 hours old, and every such check asks. *)
Lemma _check_single_payment_queried st now payment payment_id :
  RemoteStatusQuery payment_id ∈ (_check_single_payment verify_payment st now payment).2 ↔
  payment_id = payment.1 ∧ payment.1 ≠ "" ∧ now - p_created_at payment.2 ≤ hours_24.
Proof.
  split.
  - intros Hq. split; [by eapply _check_single_payment_queries|].
    revert Hq. unfold _check_single_payment.
    case_decide; [by intros ?%elem_of_nil|].
    case_decide; [by intros ?%elem_of_nil|]. intros _. split; [done|lia].
  - intros (-> & Hid & Hfresh). unfold _check_single_payment.
    rewrite decide_False by done. rewrite decide_False by lia.
    destruct (verify_payment payment.1) as [info|]; [|by apply elem_of_cons; left].
    case_decide; [by apply elem_of_cons; left|].
    destruct (extract_payment_status info) as [new_status|];
      [|by apply elem_of_cons; left].
    case_decide; [|by apply elem_of_cons; left].
    case_decide; [|by apply elem_of_cons; left].
    destruct (_process_confirmed_payment _ _ _) as [st2 sent]. simpl.
    apply elem_of_cons. by left.
Qed.

Lemma check_each_queried pending : ∀ st now payment_id,
  RemoteStatusQuery payment_id ∈ (check_each verify_payment st now pending).2 ↔
  ∃ p, (payment_id, p) ∈ pending ∧ payment_id ≠ "" ∧ now - p_created_at p ≤ hours_24.
Proof.
  induction pending as [|payment rest IH]; intros st now payment_id; simpl.
  - split; [by intros ?%elem_of_nil|]. by intros (p & ?%elem_of_nil & _).
  - pose proof (_check_single_payment_queried st now payment payment_id) as Hhd.
    destruct (_check_single_payment _ _ _ _) as [st1 ev1].
    specialize (IH st1 now payment_id).
    destruct (check_each _ _ _ _) as [st2 ev2]. simpl in *.
    rewrite elem_of_app, Hhd, IH. split.
    + intros [(-> & Hid & Hfresh)|(p & Hin & Hid & Hfresh)].
      * exists payment.2. split; [|done]. apply elem_of_cons. left. by destruct payment.
      * exists p. split; [|done]. apply elem_of_cons. by right.
    + intros (p & [Heq|Hin]%elem_of_cons & Hid & Hfresh).
      * left. by subst payment.
      * right. by exists p.
Qed.

(** The check of a payment at most 24 hours old for which the processor
    reports another status, one of the six: the row takes that status. *)
Lemma fresh_check_row st now payment_id p info status :
  payment_id ≠ "" →
  payments st !! payment_id = Some p →
  now - p_created_at p ≤ hours_24 →
  verify_payment payment_id = Some info →
  extract_payment_status info = Some status →
  status ∈ valid_statuses →
  status ≠ p_status p →
  payments (_check_single_payment verify_payment st now (payment_id, p)).1 !! payment_id =
    Some (mk_payment (p_user_id p) (p_amount p) (p_currency p) status
            (p_invoice_url p) (p_created_at p) now).
Proof.
  intros Hid Hp Hfresh Hinfo Hstatus Hvalid Hnew. unfold _check_single_payment. simpl.
  rewrite decide_False by done. rewrite decide_False by lia. rewrite Hinfo.
  destruct (decide (info = ∅)) as [->|_]; [by vm_compute in Hstatus|]. rewrite Hstatus.
  rewrite decide_True by done.
  rewrite (update_payment_status_stored st now payment_id status p) by done.
  destruct (decide (p_status p = status)); [congruence|].
  destruct (decide (status = "confirmed")); simpl.
  - match goal with |- context [_process_confirmed_payment ?a ?b ?c] =>
      pose proof (_process_confirmed_payment_payments a b c) as Hpay;
      destruct (_process_confirmed_payment a b c) as [st2 sent] end.
    simpl in *. rewrite Hpay. simpl. by rewrite lookup_insert_eq.
  - by rewrite lookup_insert_eq.
Qed.

Lemma check_each_fresh pending : ∀ st now payment_id p info status,
  NoDup pending.*1 →
  (payment_id, p) ∈ pending →
  payment_id ≠ "" →
  payments st !! payment_id = Some p →
  now - p_created_at p ≤ hours_24 →
  verify_payment payment_id = Some info →
  extract_payment_status info = Some status →
  status ∈ valid_statuses →
  status ≠ p_status p →
  payments (check_each verify_payment st now pending).1 !! payment_id =
    Some (mk_payment (p_user_id p) (p_amount p) (p_currency p) status
            (p_invoice_url p) (p_created_at p) now).
Proof.
  induction pending as [|payment rest IH];
    intros st now payment_id p info status Hnd Hin Hid Hp Hfresh Hinfo Hstatus Hvalid Hnew.
  { by apply elem_of_nil in Hin. }
  rewrite fmap_cons in Hnd. apply NoDup_cons in Hnd as [Hfirst Hnd].
  simpl. apply elem_of_cons in Hin as [<-|Hin].
  - pose proof (fresh_check_row st now payment_id p info status
                  Hid Hp Hfresh Hinfo Hstatus Hvalid Hnew) as Hrow.
    destruct (_check_single_payment _ _ _ _) as [st1 ev1].
    pose proof (check_each_other rest st1 now payment_id Hfirst) as Hkeep.
    destruct (check_each _ _ _ _) as [st2 ev2]. simpl in *. congruence.
  - assert (Hne : payment_id ≠ payment.1).
    { intros ->. apply Hfirst. by apply (list_elem_of_fmap_2 fst) in Hin. }
    pose proof (_check_single_payment_other st now payment payment_id Hne) as Hhd.
    destruct (_check_single_payment _ _ _ _) as [st1 ev1]. simpl in *.
    rewrite <- Hhd in Hp.
    specialize (IH st1 now payment_id p info status
                  Hnd Hin Hid Hp Hfresh Hinfo Hstatus Hvalid Hnew).
    by destruct (check_each _ _ _ _) as [st2 ev2].
Qed.

(** C9, amended. A poller cycle fetches exactly the payments whose stored
    status is 'pending' and examines each of them: a fetched payment
    created more than 24 hours before is set to 'expired'; about every
    other fetched payment the processor is asked, and the row takes the
    status the processor reports when that is another one of the six.
    The processor is asked about no other payment, and a stored payment
    in any other status, 'confirming' among them, keeps its row. *)
Theorem poller_examines_pending_only st now :
  let cycle := _check_pending_payments verify_payment st now in
  (∀ payment_id,
     payment_id ∈ examined_payments st ↔
     ∃ p, payments st !! payment_id = Some p ∧ p_status p = "pending") ∧
  (∀ payment_id,
     RemoteStatusQuery payment_id ∈ cycle.2 ↔
     ∃ p, payments st !! payment_id = Some p ∧ p_status p = "pending" ∧
          payment_id ≠ "" ∧ now - p_created_at p ≤ hours_24) ∧
  (∀ payment_id p,
     payments st !! payment_id = Some p → p_status p = "pending" → payment_id ≠ "" →
     (now - p_created_at p > hours_24 →
      payments cycle.1 !! payment_id =
        Some (mk_payment (p_user_id p) (p_amount p) (p_currency p) "expired"
                (p_invoice_url p) (p_created_at p) now)) ∧
     (∀ info status,
        now - p_created_at p ≤ hours_24 →
        verify_payment payment_id = Some info →
        extract_payment_status info = Some status →
        status ∈ valid_statuses → status ≠ "pending" →
        payments cycle.1 !! payment_id =
          Some (mk_payment (p_user_id p) (p_amount p) (p_currency p) status
                  (p_invoice_url p) (p_created_at p) now))) ∧
  (∀ payment_id p,
     payments st !! payment_id = Some p → p_status p ≠ "pending" →
     payments cycle.1 !! payment_id = Some p).
Proof.
  simpl. split; [apply elem_of_examined_payments|]. split; [|split].
  - intros payment_id. unfold _check_pending_payments. rewrite check_each_queried.
    split.
    + intros (p & [Hp Hpending]%elem_of_get_pending_payments & Hid & Hfresh).
      by exists p.
    + intros (p & Hp & Hpending & Hid & Hfresh). exists p.
      split; [by apply elem_of_get_pending_payments|done].
  - intros payment_id p Hp Hpending Hid.
    assert (Hin : (payment_id, p) ∈ get_pending_payments st)
      by (by apply elem_of_get_pending_payments).
    split.
    + intros Hold.
      by destruct (check_each_stale (get_pending_payments st) st now payment_id p
                     (NoDup_examined_payments st) Hin Hid Hp Hpending Hold).
    + intros info status Hfresh Hinfo Hstatus Hvalid Hnew.
      apply (check_each_fresh (get_pending_payments st) st now payment_id p info status);
        try done.
      * apply NoDup_examined_payments.
      * by rewrite Hpending.
  - intros payment_id p Hp Hother. unfold _check_pending_payments.
    rewrite check_each_other; [done|].
    intros (p' & Hp' & Hpending)%elem_of_examined_payments. congruence.
Qed.

End Poller.

Lemma stale_pending_payment_witness :
  let expired :=
    mk_payment 7 50 "usdttrc20" "expired" "https://invoice/1" 0 (25 * 3600) in
  let r := _check_single_payment unreachable_processor pending_store (25 * 3600)
             ("pay_1", pending_payment) in
  let cycle := _check_pending_payments unreachable_processor pending_store (25 * 3600) in
  r.2 = [] ∧
  payments r.1 !! "pay_1" = Some expired ∧
  users r.1 = users pending_store ∧
  withdrawal_history r.1 = withdrawal_history pending_store ∧
  deals r.1 = deals pending_store ∧
  (∀ other, other ≠ "pay_1" → payments r.1 !! other = payments pending_store !! other) ∧
  ("pay_1", pending_payment) ∈ get_pending_payments pending_store ∧
  payments cycle.1 !! "pay_1" = Some expired ∧
  (RemoteStatusQuery "pay_1" ∉ cycle.2).
Proof.
  apply (stale_pending_payment_expires unreachable_processor pending_store
           (25 * 3600) "pay_1" pending_payment);
    try reflexivity; discriminate.
Defined.

(** A payment younger than 24 hours is asked about at the processor. *)
Example fresh_pending_payment_is_queried :
  (_check_single_payment unreachable_processor pending_store 3600
     ("pay_1", pending_payment)).2 = [RemoteStatusQuery "pay_1"].
Proof. vm_compute. done. Qed.

(** C9, as stated, fails: a stored payment in status 'confirming', which is
    not terminal, is not among the payments a cycle examines; only the
    'pending' one is. *)
Lemma confirming_payment_not_examined :
  payments mixed_store !! "pay_2" = Some confirming_payment ∧
  (p_status confirming_payment ∉ terminal_statuses) ∧
  examined_payments mixed_store = ["pay_1"] ∧
  ("pay_2" ∉ examined_payments mixed_store) ∧
  (_check_pending_payments confirming_processor mixed_store 3600).2 =
    [RemoteStatusQuery "pay_1"; PaymentConfirmedMessage 7 50 "pay_1"] ∧
  payments (_check_pending_payments confirming_processor mixed_store 3600).1 !! "pay_2" =
    Some confirming_payment.
Proof.
  assert (Hex : examined_payments mixed_store = ["pay_1"]) by (by vm_compute).
  split; [by vm_compute|]. split; [|split; [done|split; [|split; by vm_compute]]].
  - unfold terminal_statuses. simpl. rewrite !elem_of_cons, elem_of_nil.
    intros [H|[H|[H|[H|[]]]]]; discriminate H.
  - rewrite Hex. intros H%list_elem_of_singleton. discriminate H.
Qed.

(** ** The withdrawal workflow: [approve_withdrawal], [reject_withdrawal] *)

Lemma row_at_set_row_at {A} (rows : list A) k r r' :
  row_at rows k = Some r → row_at (set_row_at rows k r') k = Some r'.
Proof.
  unfold row_at, set_row_at. case_decide; [|done].
  intros Hr. apply list_lookup_insert_eq. by eapply lookup_lt_Some.
Qed.

(** C7. For a withdrawal request with amount A: while it is 'pending',
    [reject_withdrawal] marks it 'rejected' and raises the balance of its
    owner by exactly A, leaving every other account alone, and
    [approve_withdrawal] marks it 'approved' and leaves the users table as
    it is; once it is not 'pending', both return false and the database
    unchanged.  The refund is stated for an owner whose balance plus A is
    not negative, which holds whenever balance and amount are not
    negative. *)
Theorem withdrawal_decisions st now withdrawal_id admin_notes w :
  row_at (withdrawal_history st) withdrawal_id = Some w →
  (w_status w = "pending" →
   (0 ≤ balance_of st (w_user_id w) + w_amount w →
    let r := reject_withdrawal st now withdrawal_id admin_notes in
    r.2 = true ∧
    row_at (withdrawal_history r.1) withdrawal_id =
      Some (mk_withdrawal (w_user_id w) (w_amount w) "rejected" admin_notes now) ∧
    balance_of r.1 (w_user_id w) = balance_of st (w_user_id w) + w_amount w ∧
    (∀ other, other ≠ w_user_id w → users r.1 !! other = users st !! other)) ∧
   (let a := approve_withdrawal st now withdrawal_id admin_notes in
    a.2 = true ∧
    row_at (withdrawal_history a.1) withdrawal_id =
      Some (mk_withdrawal (w_user_id w) (w_amount w) "approved" admin_notes now) ∧
    users a.1 = users st)) ∧
  (w_status w ≠ "pending" →
   approve_withdrawal st now withdrawal_id admin_notes = (st, false) ∧
   reject_withdrawal st now withdrawal_id admin_notes = (st, false)).
Proof.
  intros Hw. split.
  - intros Hpending. split.
    + intros Hge. unfold reject_withdrawal. rewrite Hw.
      rewrite decide_False by (intros H; by apply H). simpl.
      destruct (update_balance_credit st now (w_user_id w) (w_amount w) Hge)
        as [_ Hbal].
      pose proof (update_balance_tables st now (w_user_id w) (w_amount w))
        as (Hwh & _ & _).
      simpl in *. rewrite Hwh. repeat split.
      * by eapply row_at_set_row_at.
      * exact Hbal.
      * intros other Hne. by apply update_balance_other.
    + unfold approve_withdrawal. rewrite Hw.
      rewrite decide_False by (intros H; by apply H). simpl.
      repeat split. by eapply row_at_set_row_at.
  - intros Hnot. unfold approve_withdrawal, reject_withdrawal. rewrite Hw.
    by rewrite !decide_True by done.
Qed.

Lemma withdrawal_decisions_witness :
  ("pending" = "pending" →
   (0 ≤ 20 + 30 →
    let r := reject_withdrawal demo_withdrawals 9 1 (Some "no") in
    r.2 = true ∧
    row_at (withdrawal_history r.1) 1 = Some (mk_withdrawal 7 30 "rejected" (Some "no") 9) ∧
    balance_of r.1 7 = 20 + 30 ∧
    (∀ other, other ≠ 7 → users r.1 !! other = users demo_withdrawals !! other)) ∧
   (let a := approve_withdrawal demo_withdrawals 9 1 (Some "no") in
    a.2 = true ∧
    row_at (withdrawal_history a.1) 1 = Some (mk_withdrawal 7 30 "approved" (Some "no") 9) ∧
    users a.1 = users demo_withdrawals)) ∧
  ("pending" ≠ "pending" →
   approve_withdrawal demo_withdrawals 9 1 (Some "no") = (demo_withdrawals, false) ∧
   reject_withdrawal demo_withdrawals 9 1 (Some "no") = (demo_withdrawals, false)).
Proof.
  apply (withdrawal_decisions demo_withdrawals 9 1 (Some "no")
           (mk_withdrawal 7 30 "pending" None 1)).
  reflexivity.
Defined.

Example settled_withdrawal_is_left_alone :
  approve_withdrawal demo_withdrawals 9 2 None = (demo_withdrawals, false) ∧
  reject_withdrawal demo_withdrawals 9 2 None = (demo_withdrawals, false).
Proof. vm_compute. done. Qed.

(** ** The escrow deal engine: [handle_deal_amount], [resolve_dispute] *)


(** With the buyer's account in place and the deal amount covered by its
    balance, 'pay_seller' takes the deal amount from the buyer. *)
Lemma pay_seller_debits_buyer st now deal_id admin_notes deal u :
  row_at (deals st) deal_id = Some deal →
  d_status deal = "disputed" →
  users st !! buyer_id deal = Some u →
  d_amount deal ≤ balance u →
  let r := resolve_dispute st now deal_id "pay_seller" admin_notes in
  r.2 = true ∧
  row_at (deals r.1) deal_id = Some (resolved_deal deal now "completed" admin_notes) ∧
  balance_of r.1 (buyer_id deal) = balance u - d_amount deal.
Proof.
  intros Hd Hst Hu Hle. unfold resolve_dispute. rewrite Hd.
  rewrite decide_False by (intros H; by apply H). simpl.
  pose proof (update_balance_tables st now (buyer_id deal) (- d_amount deal))
    as (_ & Hdeals & _).
  destruct (update_balance_credit st now (buyer_id deal) (- d_amount deal))
    as [_ Hbal].
  { unfold balance_of. rewrite Hu. lia. }
  simpl in *. rewrite Hdeals. repeat split.
  - by eapply row_at_set_row_at.
  - unfold balance_of in *. simpl. rewrite Hbal, Hu. lia.
Qed.

(** C4. A buyer with balance 100 who entered a deal of 40 holds 60 while
    the deal is in dispute; resolving the dispute with 'pay_seller' sets
    the deal to 'completed' with a completion timestamp and takes another
    40 from the buyer, whose balance goes from 60 to 20. *)
Theorem pay_seller_debits_buyer_again :
  balance_of (store demo_deal_entered) 7 = 60 ∧
  (d_status <$> row_at (deals demo_deal_disputed) 1) = Some "disputed" ∧
  balance_of demo_deal_disputed 7 = 60 ∧
  let r := resolve_dispute demo_deal_disputed 30 1 "pay_seller" None in
  r.2 = true ∧
  (d_status <$> row_at (deals r.1) 1) = Some "completed" ∧
  (completed_at <$> row_at (deals r.1) 1) = Some (Some 30) ∧
  balance_of r.1 7 = 20.
Proof. vm_compute. done. Qed.

(** The sibling resolution: 'refund_buyer' returns the deal amount to the
    buyer and cancels the deal. *)
Lemma refund_buyer_credits_buyer st now deal_id admin_notes deal :
  row_at (deals st) deal_id = Some deal →
  d_status deal = "disputed" →
  0 ≤ balance_of st (buyer_id deal) + d_amount deal →
  let r := resolve_dispute st now deal_id "refund_buyer" admin_notes in
  r.2 = true ∧
  row_at (deals r.1) deal_id = Some (resolved_deal deal now "cancelled" admin_notes) ∧
  balance_of r.1 (buyer_id deal) = balance_of st (buyer_id deal) + d_amount deal.
Proof.
  intros Hd Hst Hge. unfold resolve_dispute. rewrite Hd.
  rewrite decide_False by (intros H; by apply H). simpl.
  pose proof (update_balance_tables st now (buyer_id deal) (d_amount deal))
    as (_ & Hdeals & _).
  destruct (update_balance_credit st now (buyer_id deal) (d_amount deal) Hge)
    as [_ Hbal].
  simpl in *. rewrite Hdeals. repeat split; [|done].
  by eapply row_at_set_row_at.
Qed.

Example refund_buyer_scenario :
  let r := resolve_dispute demo_deal_disputed 30 1 "refund_buyer" None in
  r.2 = true ∧
  (d_status <$> row_at (deals r.1) 1) = Some "cancelled" ∧
  balance_of r.1 7 = 100.
Proof. vm_compute. done. Qed.

Section DealCreation.

Variable parse_float : string → option Z.
Variable MAX_DEAL_AMOUNT : Z.

Local Abbreviation handle := (handle_deal_amount parse_float MAX_DEAL_AMOUNT).
Local Abbreviation validate := (validate_amount parse_float).


End DealCreation.

(** A deal of 40 against a balance of 100 is stored and paid for; a deal of
    400 is refused and nothing is stored. *)
Example deal_within_balance :
  deals (store demo_deal_entered) =
    [mk_deal 7 "@seller" "Logo design" 40 "waiting" 10 10 None None None] ∧
  balance_of (store demo_deal_entered) 7 = 60.
Proof. vm_compute. done. Qed.

Example deal_beyond_balance :
  let r := handle_deal_amount demo_parse 1000 demo_bot 10 (mk_message (Some 7) 7 "400") in
  deals (store r.1.1) = [] ∧ balance_of (store r.1.1) 7 = 100 ∧
  r.1.2 = [BotMessage 7 (InsufficientBalance 400 100);
           RegisterNextStep 7 "handle_deal_amount"].
Proof. vm_compute. done. Qed.

(** * Further properties *)

(** ** db.py: payment records, accounts, deals *)

(** X1. [add_payment] reports success exactly when the payment id and the
    currency are not empty, the user id is not zero and the amount is
    positive; when it reports failure the database is the one it was
    given. *)
Theorem add_payment_accepts st now user_id payment_id amount currency invoice_url :
  let r := add_payment st now user_id payment_id amount currency invoice_url in
  (r.2 = true ↔ payment_id ≠ "" ∧ user_id ≠ 0 ∧ 0 < amount ∧ currency ≠ "") ∧
  (r.2 = false → r.1 = st).
Proof.
  unfold add_payment.
  destruct (decide (payment_id = "")) as [->|Hid]; simpl.
  { split; [|done]. split; [done|]. by intros (? & _). }
  destruct (decide (user_id = 0)) as [->|Hu]; simpl.
  { split; [|done]. split; [done|]. by intros (_ & ? & _). }
  destruct (decide (amount = 0 ∨ amount ≤ 0)) as [Ha|Ha]; simpl.
  { split; [|done]. split; [done|]. intros (_ & _ & ? & _). lia. }
  destruct (decide (currency = "")) as [->|Hc]; simpl.
  { split; [|done]. split; [done|]. by intros (_ & _ & _ & ?). }
  assert (0 < amount) by lia.
  destruct (payments st !! payment_id); simpl; by split.
Qed.

(** X2. A payment added under a fresh id is read back by
    [get_payment_by_id] as a 'pending' row with the user, amount, currency
    and invoice URL given, no other payment and no account is touched, and
    adding again under the same id, with whatever valid data, reports
    success and changes nothing: the first row is not overwritten. *)
Theorem add_payment_stores_once
    st now user_id payment_id amount currency invoice_url
    now' user_id' amount' currency' invoice_url' :
  payment_id ≠ "" → user_id ≠ 0 → 0 < amount → currency ≠ "" →
  payments st !! payment_id = None →
  user_id' ≠ 0 → 0 < amount' → currency' ≠ "" →
  let st1 := (add_payment st now user_id payment_id amount currency invoice_url).1 in
  get_payment_by_id st1 payment_id =
    Some (mk_payment user_id amount currency "pending" invoice_url now now) ∧
  (∀ other, other ≠ payment_id → payments st1 !! other = payments st !! other) ∧
  users st1 = users st ∧
  add_payment st1 now' user_id' payment_id amount' currency' invoice_url' = (st1, true).
Proof.
  intros Hid Hu Ha Hc Hfresh Hu' Ha' Hc'. unfold add_payment, get_payment_by_id.
  rewrite !decide_False by (done || lia). rewrite Hfresh. simpl.
  rewrite lookup_insert_eq. split; [done|]. split; [|done].
  intros other Hne. by rewrite lookup_insert_ne.
Qed.

Lemma add_payment_stores_once_witness :
  let st1 := (add_payment empty_db 5 7 "pay_1" 50 "usdttrc20" "https://invoice/1").1 in
  get_payment_by_id st1 "pay_1" =
    Some (mk_payment 7 50 "usdttrc20" "pending" "https://invoice/1" 5 5) ∧
  (∀ other, other ≠ "pay_1" → payments st1 !! other = payments empty_db !! other) ∧
  users st1 = users empty_db ∧
  add_payment st1 9 8 "pay_1" 70 "btc" "https://invoice/2" = (st1, true).
Proof.
  apply (add_payment_stores_once empty_db 5 7 "pay_1" 50 "usdttrc20" "https://invoice/1"
           9 8 70 "btc" "https://invoice/2");
    try reflexivity; discriminate.
Defined.

(** X3. [get_user] creates a missing account with balance 0 and no deals
    done, returns the stored row, changes the balance shown for no user
    and no row of another user, and a second call returns the same row and
    the same database. *)
Theorem get_user_creates_once st now now' user_id :
  let r := get_user st now user_id in
  users r.1 !! user_id = Some r.2 ∧
  (users st !! user_id = None → r.2 = mk_user 0 0 now now) ∧
  (∀ u, users st !! user_id = Some u → r = (st, u)) ∧
  (∀ other, balance_of r.1 other = balance_of st other) ∧
  (∀ other, other ≠ user_id → users r.1 !! other = users st !! other) ∧
  get_user r.1 now' user_id = r.
Proof.
  unfold get_user, balance_of.
  destruct (users st !! user_id) as [u|] eqn:Hu; simpl.
  - rewrite Hu. repeat split; try done. by intros ? [= ->].
  - rewrite lookup_insert_eq. repeat split; try done.
    + intros other. destruct (decide (other = user_id)) as [->|Hne].
      * by rewrite lookup_insert_eq, Hu.
      * by rewrite lookup_insert_ne.
    + intros other Hne. by rewrite lookup_insert_ne.
Qed.

(** X4. [update_deal_status] always reports success, also for an id that
    names no deal, in which case nothing changes.  For a stored deal only
    its status, its update time and, when a non-empty note is given, its
    admin notes change: buyer, seller, description, amount and completion
    time stay, as do the number of deals and every other table. *)
Theorem update_deal_status_result st now deal_id status admin_notes :
  let r := update_deal_status st now deal_id status admin_notes in
  r.2 = true ∧
  users r.1 = users st ∧ payments r.1 = payments st ∧
  withdrawal_history r.1 = withdrawal_history st ∧
  length (deals r.1) = length (deals st) ∧
  (row_at (deals st) deal_id = None → r.1 = st) ∧
  (∀ deal, row_at (deals st) deal_id = Some deal →
     ∃ notes,
       row_at (deals r.1) deal_id =
         Some (mk_deal (buyer_id deal) (seller_username deal) (description deal)
                 (d_amount deal) status (d_created_at deal) now (completed_at deal)
                 (dispute_reason deal) notes) ∧
       (admin_notes = None ∨ admin_notes = Some "" → notes = d_admin_notes deal) ∧
       (∀ n, admin_notes = Some n → n ≠ "" → notes = Some n)).
Proof.
  unfold update_deal_status.
  destruct (row_at (deals st) deal_id) as [deal|] eqn:Hd; simpl; [|done].
  repeat split; try done.
  - unfold set_row_at. case_decide; [|done]. by rewrite length_insert.
  - intros ? [= <-]. eexists. split; [by eapply row_at_set_row_at|]. split.
    + intros [->| ->]; [done|]. by rewrite decide_True.
    + intros n -> Hn. by rewrite decide_False.
Qed.

(** X5. The 'disputes' entry of [get_deal_counts] counts deals whose status
    is the string 'disputes': it is 0 whenever no deal carries that status,
    and a deal in status 'disputed' adds to none of the three entries. *)
Theorem disputed_deals_not_counted st user_id :
  ((∀ deal, deal ∈ deals st → d_status deal ≠ "disputes") →
   get_deal_counts st user_id !! "disputes" = Some 0%nat) ∧
  (∀ deal, d_status deal = "disputed" →
     get_deal_counts (set_deals st (deals st ++ [deal])) user_id =
       get_deal_counts st user_id).
Proof.
  split.
  - intros Hnone. unfold get_deal_counts.
    rewrite lookup_insert_ne by done. rewrite lookup_insert_ne by done.
    rewrite lookup_singleton_eq. f_equal. unfold count_deals.
    destruct (filter _ (deals st)) as [|d ds] eqn:E; [done|].
    assert (Hd : d ∈ d :: ds) by (apply elem_of_cons; by left).
    rewrite <- E in Hd. apply list_elem_of_filter in Hd as [[_ Hs] Hd].
    by destruct (Hnone d Hd).
  - intros deal Hs. unfold get_deal_counts, count_deals. simpl.
    rewrite !filter_app, !filter_cons, !filter_nil.
    rewrite !decide_False by (rewrite Hs; by intros [_ ?]).
    by rewrite !app_nil_r.
Qed.

(** ** payment.py and webhook.py: notifications *)

Lemma validate_webhook_payload_missing data :
  extract_payment_id data = None ∨ extract_payment_status data = None →
  validate_webhook_payload data = (false, None, None).
Proof.
  unfold validate_webhook_payload.
  destruct (extract_payment_id data) as [i|] eqn:Hi; simpl.
  - apply extract_payment_id_truthy, truthy_Some in Hi. simpl in Hi. rewrite Hi. simpl.
    intros [?| ->]; done.
  - done.
Qed.

Section Notifications.

Variable WEBHOOK_SECRET : string.
Variable hmac_sha512_hex : string → string → string.
Variable json_loads : string → option json_object.

Local Abbreviation process := (process_webhook WEBHOOK_SECRET hmac_sha512_hex json_loads).
Local Abbreviation verified := (verify_webhook_signature WEBHOOK_SECRET hmac_sha512_hex).
Local Abbreviation endpoint :=
  (nowpayments_webhook WEBHOOK_SECRET hmac_sha512_hex json_loads).

(** Every run of [process_webhook] is of one of five kinds. *)
Lemma process_webhook_cases st now payload signature :
  let r := process st now payload signature in
  r = (st, false, []) ∨ r = (st, true, []) ∨
  ∃ data payment_id status p,
    verified payload signature = true ∧
    json_loads payload = Some data ∧
    extract_payment_id data = Some payment_id ∧
    extract_payment_status data = Some status ∧
    payments st !! payment_id = Some p ∧
    p_status p ≠ status ∧ status ∈ valid_statuses ∧
    let st1 :=
      set_payments st
        (<[payment_id :=
             mk_payment (p_user_id p) (p_amount p) (p_currency p) status
               (p_invoice_url p) (p_created_at p) now]> (payments st)) in
    (status ≠ "confirmed" ∧ r = (st1, true, [])) ∨
    (status = "confirmed" ∧ (p_user_id p = 0 ∨ p_amount p = 0) ∧ r = (st1, false, [])) ∨
    (status = "confirmed" ∧ p_user_id p ≠ 0 ∧ p_amount p ≠ 0 ∧
     r = ((update_balance st1 now (p_user_id p) (p_amount p)).1,
          (update_balance st1 now (p_user_id p) (p_amount p)).2,
          if (update_balance st1 now (p_user_id p) (p_amount p)).2
          then [PaymentConfirmedMessage (p_user_id p) (p_amount p) payment_id]
          else [])).
Proof.
  unfold process_webhook.
  destruct (verify_webhook_signature _ _ _ _) eqn:Hsig; simpl; [|by left].
  destruct (json_loads payload) as [data|] eqn:Hload; [|by left].
  destruct (extract_payment_id data) as [payment_id|] eqn:Hid;
    [|rewrite validate_webhook_payload_missing by (by left); by left].
  destruct (extract_payment_status data) as [status|] eqn:Hst;
    [|rewrite validate_webhook_payload_missing by (by right); by left].
  rewrite (validate_webhook_payload_ok _ _ _ Hid Hst).
  pose proof (extract_payment_id_truthy _ _ Hid) as Hne.
  unfold get_payment_by_id.
  destruct (payments st !! payment_id) as [p|] eqn:Hp; [|by left].
  destruct (decide (p_status p = status)) as [Heq|Hneq]; [right; by left|].
  destruct (decide (status ∈ valid_statuses)) as [Hvalid|Hinvalid];
    [|rewrite update_payment_status_invalid by done; by left].
  rewrite (update_payment_status_stored st now payment_id status p) by done.
  rewrite decide_False by done. simpl.
  right. right. exists data, payment_id, status, p.
  do 7 (split; [done|]). simpl.
  destruct (decide (status = "confirmed")) as [->|Hnc]; [|by left].
  right.
  destruct (decide (p_user_id p = 0)) as [Hu|Hu].
  { left. rewrite (bool_decide_eq_false_2 (p_user_id p ≠ 0)) by (by intros ?).
    simpl. split; [done|]. split; [by left|done]. }
  destruct (decide (p_amount p = 0)) as [Ha|Ha].
  { left. rewrite (bool_decide_eq_false_2 (p_amount p ≠ 0)) by (by intros ?).
    rewrite andb_false_r. split; [done|]. split; [by right|done]. }
  right. rewrite !bool_decide_eq_true_2 by done. simpl.
  do 3 (split; [done|]).
  by destruct (update_balance _ _ _ _) as [st2 []].
Qed.

(** X6. Whatever the notification, [process_webhook] leaves the deals and
    the withdrawal requests alone, neither creates nor deletes a payment
    record, and never changes the owner, amount, currency, invoice URL or
    creation time of one. *)
Theorem webhook_keeps_payment_records st now payload signature :
  let st' :=
    (process_webhook WEBHOOK_SECRET hmac_sha512_hex json_loads st now payload signature).1.1 in
  withdrawal_history st' = withdrawal_history st ∧
  deals st' = deals st ∧
  dom (payments st') = dom (payments st) ∧
  (∀ payment_id p', payments st' !! payment_id = Some p' →
     ∃ p, payments st !! payment_id = Some p ∧
          p_user_id p' = p_user_id p ∧ p_amount p' = p_amount p ∧
          p_currency p' = p_currency p ∧ p_invoice_url p' = p_invoice_url p ∧
          p_created_at p' = p_created_at p).
Proof.
  assert (Hsame : ∀ st' : db,
    st' = st →
    withdrawal_history st' = withdrawal_history st ∧ deals st' = deals st ∧
    dom (payments st') = dom (payments st) ∧
    (∀ payment_id p', payments st' !! payment_id = Some p' →
       ∃ p, payments st !! payment_id = Some p ∧
            p_user_id p' = p_user_id p ∧ p_amount p' = p_amount p ∧
            p_currency p' = p_currency p ∧ p_invoice_url p' = p_invoice_url p ∧
            p_created_at p' = p_created_at p)).
  { intros ? ->. repeat split. intros payment_id p' Hp. by exists p'. }
  destruct (process_webhook_cases st now payload signature)
    as [Hr|[Hr|(data & pid & status & p & _ & _ & _ & _ & Hp & _ & _ & Hr)]];
    simpl in *; try (rewrite Hr; by apply Hsame).
  set (st1 := set_payments st _) in Hr.
  assert (Hst1 :
    withdrawal_history st1 = withdrawal_history st ∧ deals st1 = deals st ∧
    dom (payments st1) = dom (payments st) ∧
    (∀ payment_id p', payments st1 !! payment_id = Some p' →
       ∃ p, payments st !! payment_id = Some p ∧
            p_user_id p' = p_user_id p ∧ p_amount p' = p_amount p ∧
            p_currency p' = p_currency p ∧ p_invoice_url p' = p_invoice_url p ∧
            p_created_at p' = p_created_at p)).
  { subst st1. simpl. repeat split.
    - apply dom_insert_lookup_L. by rewrite Hp.
    - intros payment_id p'. destruct (decide (payment_id = pid)) as [->|Hne].
      + rewrite lookup_insert_eq. intros [= <-]. by exists p.
      + rewrite lookup_insert_ne by done. intros Hp'. by exists p'. }
  destruct Hr as [[_ ->]|[(_ & _ & ->)|(_ & _ & _ & ->)]]; simpl; try done.
  pose proof (update_balance_tables st1 now (p_user_id p) (p_amount p))
    as (Hw & Hd & Hpay).
  simpl in *. rewrite Hw, Hd, Hpay. done.
Qed.

(** X7. [process_webhook] changes a balance in one way only: when it
    returns true for a notification that reports 'confirmed' for a stored
    payment not yet 'confirmed', the owner of that payment is credited the
    stored amount.  Every other balance, and every balance in every other
    run, stays as it was. *)
Theorem webhook_credit_only_on_confirmation st now payload signature user_id :
  let r := process st now payload signature in
  balance_of r.1.1 user_id ≠ balance_of st user_id →
  r.1.2 = true ∧
  ∃ data payment_id p,
    json_loads payload = Some data ∧
    extract_payment_id data = Some payment_id ∧
    extract_payment_status data = Some "confirmed" ∧
    payments st !! payment_id = Some p ∧
    p_status p ≠ "confirmed" ∧
    p_user_id p = user_id ∧
    balance_of r.1.1 user_id = balance_of st user_id + p_amount p.
Proof.
  simpl.
  destruct (process_webhook_cases st now payload signature)
    as [Hr|[Hr|(data & pid & status & p & _ & Hload & Hid & Hst & Hp & Hneq & _ & Hr)]];
    simpl in *; try (rewrite Hr; simpl; by intros []).
  destruct Hr as [[_ ->]|[(_ & _ & ->)|(-> & Hu & Ha & ->)]]; simpl;
    try (by intros []).
  set (st1 := set_payments st _).
  assert (Hb1 : ∀ u, balance_of st1 u = balance_of st u) by done.
  intros Hchanged.
  destruct (decide (user_id = p_user_id p)) as [->|Hother];
    [|by rewrite balance_of_other, Hb1 in Hchanged].
  unfold balance_of in *. unfold update_balance in *.
  change (users st1) with (users st) in *.
  destruct (users st !! p_user_id p) as [u|] eqn:Hacc; simpl in *.
  - destruct (decide (balance u + p_amount p < 0)); simpl in *.
    + change (users st1) with (users st) in Hchanged. by rewrite Hacc in Hchanged.
    + rewrite lookup_insert_eq. simpl. split; [done|].
      exists data, pid, p. by repeat split.
  - rewrite lookup_insert_eq. simpl. split; [done|].
    exists data, pid, p. by repeat split.
Qed.

(** X8. A notification leaves the database untouched and sends nothing
    when its signature does not verify, when its body does not decode,
    when it names no payment id or no status, when no payment is stored
    under its id (no record is created from a notification), and when its
    status is none of the six.  The call returns false in each of these
    cases, except that a status outside the six which equals the stored
    one counts as a duplicate and returns true. *)
Theorem webhook_refusals st now payload signature :
  let r := process st now payload signature in
  (verified payload signature = false → r = (st, false, [])) ∧
  (json_loads payload = None → r = (st, false, [])) ∧
  (∀ data, json_loads payload = Some data →
     (extract_payment_id data = None ∨ extract_payment_status data = None →
      r = (st, false, [])) ∧
     (∀ payment_id, extract_payment_id data = Some payment_id →
        payments st !! payment_id = None → r = (st, false, [])) ∧
     (∀ payment_id status p,
        verified payload signature = true →
        extract_payment_id data = Some payment_id →
        extract_payment_status data = Some status →
        payments st !! payment_id = Some p →
        status ∉ valid_statuses →
        r = (st, bool_decide (p_status p = status), []))).
Proof.
  unfold process_webhook. split; [by intros ->|].
  destruct (verify_webhook_signature _ _ _ _); simpl;
    [|split; [done|]; intros data _; split; [done|]; split; [done|]; by intros].
  split; [by intros ->|]. intros data ->. split; [|split].
  - intros Hmiss. by rewrite validate_webhook_payload_missing.
  - intros payment_id Hid Hp.
    destruct (extract_payment_status data) as [status|] eqn:Hst;
      [|by rewrite validate_webhook_payload_missing by (by right)].
    rewrite (validate_webhook_payload_ok _ _ _ Hid Hst).
    unfold get_payment_by_id. by rewrite Hp.
  - intros payment_id status p _ Hid Hst Hp Hbad.
    rewrite (validate_webhook_payload_ok _ _ _ Hid Hst).
    unfold get_payment_by_id. rewrite Hp.
    destruct (decide (p_status p = status)) as [Heq|Hneq].
    + by rewrite bool_decide_eq_true_2.
    + rewrite update_payment_status_invalid by done. simpl.
      by rewrite (bool_decide_eq_false_2 (p_status p = status)).
Qed.

(** X9. The webhook endpoint answers 200 or 400, and 200 exactly when the
    body is not empty, a non-empty signature header is present and
    [process_webhook] returned true.  A request without body or without
    signature header is answered 400 with the database untouched, also
    when no secret is configured and signatures are not verified. *)
Theorem webhook_endpoint_status st now payload signature_header :
  let r :=
    nowpayments_webhook WEBHOOK_SECRET hmac_sha512_hex json_loads st now payload
      signature_header in
  (r.1.2 = 200 ∨ r.1.2 = 400) ∧
  (r.1.2 = 200 ↔
   payload ≠ "" ∧
   ∃ signature, signature_header = Some signature ∧ signature ≠ "" ∧
                (process st now payload signature).1.2 = true) ∧
  (payload = "" ∨ signature_header = None ∨ signature_header = Some "" →
   r = (st, 400, [])).
Proof.
  unfold nowpayments_webhook.
  destruct (decide (payload = "")) as [->|Hp]; simpl.
  { split; [by right|]. split; [|done]. split; [done|]. by intros [? _]. }
  destruct signature_header as [signature|]; simpl.
  2:{ split; [by right|]. split; [|done]. split; [done|].
      by intros (_ & ? & ? & _). }
  destruct (decide (signature = "")) as [->|Hs]; simpl.
  { split; [by right|]. split; [|done]. split; [done|].
    intros (_ & ? & [= <-] & ? & _). done. }
  destruct (process_webhook _ _ _ _ _ _ _) as [[st1 ok] sent] eqn:Hrun. simpl.
  destruct ok; simpl.
  - split; [by left|]. split.
    + split; [|done]. intros _. split; [done|]. exists signature.
      by rewrite Hrun.
    + intros [?|[?|[= ?]]]; done.
  - split; [by right|]. split.
    + split; [done|]. intros (_ & sig & [= <-] & _ & Hok).
      rewrite Hrun in Hok. done.
    + intros [?|[?|[= ?]]]; done.
Qed.

End Notifications.

Lemma webhook_credit_only_on_confirmation_witness :
  let r := process_webhook "secret" demo_hmac demo_loads pending_store 100
             "body-1" "secret:body-1" in
  r.1.2 = true ∧
  ∃ data payment_id p,
    demo_loads "body-1" = Some data ∧
    extract_payment_id data = Some payment_id ∧
    extract_payment_status data = Some "confirmed" ∧
    payments pending_store !! payment_id = Some p ∧
    p_status p ≠ "confirmed" ∧
    p_user_id p = 7 ∧
    balance_of r.1.1 7 = balance_of pending_store 7 + p_amount p.
Proof.
  apply (webhook_credit_only_on_confirmation "secret" demo_hmac demo_loads
           pending_store 100 "body-1" "secret:body-1" 7).
  vm_compute. discriminate.
Defined.

(** ** nowpayments_adapter.py: the two field namings *)

(** X10. A notification is valid exactly when it carries a non-empty
    payment id and a non-empty status, each under its legacy key
    ("payment_id", "payment_status") or its current key ("id", "status").
    A non-empty legacy field wins over the current one; a missing or empty
    legacy field falls back to the current one; an invalid notification
    yields neither id nor status. *)
Theorem webhook_payload_fields data :
  (∀ a, data !! "payment_id" = Some a → a ≠ "" → extract_payment_id data = Some a) ∧
  (data !! "payment_id" = None ∨ data !! "payment_id" = Some "" →
   extract_payment_id data =
     match data !! "id" with
     | Some b => if decide (b = "") then None else Some b
     | None => None
     end) ∧
  (∀ a, data !! "payment_status" = Some a → a ≠ "" →
     extract_payment_status data = Some a) ∧
  (data !! "payment_status" = None ∨ data !! "payment_status" = Some "" →
   extract_payment_status data =
     match data !! "status" with
     | Some b => if decide (b = "") then None else Some b
     | None => None
     end) ∧
  (∀ i s, validate_webhook_payload data = (true, Some i, Some s) ↔
          extract_payment_id data = Some i ∧ extract_payment_status data = Some s) ∧
  (extract_payment_id data = None ∨ extract_payment_status data = None →
   validate_webhook_payload data = (false, None, None)).
Proof.
  assert (Hfirst : ∀ k1 k2 : string,
    (∀ a, data !! k1 = Some a → a ≠ "" →
       (let v := py_or (data !! k1) (data !! k2) in if truthy v then v else None) = Some a) ∧
    (data !! k1 = None ∨ data !! k1 = Some "" →
       (let v := py_or (data !! k1) (data !! k2) in if truthy v then v else None) =
         match data !! k2 with
         | Some b => if decide (b = "") then None else Some b
         | None => None
         end)).
  { intros k1 k2. split.
    - intros a -> Ha. unfold py_or. simpl.
      rewrite bool_decide_eq_true_2 by done. simpl.
      by rewrite bool_decide_eq_true_2.
    - intros [-> | ->]; unfold py_or; simpl.
      + destruct (data !! k2) as [b|]; simpl; [|done].
        destruct (decide (b = "")) as [->|Hb]; [done|].
        by rewrite bool_decide_eq_true_2.
      + destruct (data !! k2) as [b|]; simpl; [|done].
        destruct (decide (b = "")) as [->|Hb]; [done|].
        by rewrite bool_decide_eq_true_2. }
  split; [apply (Hfirst "payment_id" "id")|].
  split; [apply (Hfirst "payment_id" "id")|].
  split; [apply (Hfirst "payment_status" "status")|].
  split; [apply (Hfirst "payment_status" "status")|].
  split; [|apply validate_webhook_payload_missing].
  intros i s. split.
  - intros Hv.
    destruct (extract_payment_id data) as [i'|] eqn:Hi;
      [|rewrite validate_webhook_payload_missing in Hv by (by left); done].
    destruct (extract_payment_status data) as [s'|] eqn:Hs;
      [|rewrite validate_webhook_payload_missing in Hv by (by right); done].
    rewrite (validate_webhook_payload_ok _ _ _ Hi Hs) in Hv. by injection Hv as -> ->.
  - intros [Hi Hs]. by apply validate_webhook_payload_ok.
Qed.

(** ** payment.py: [create_invoice] *)

Lemma add_payment_failure st now user_id payment_id amount currency invoice_url :
  (add_payment st now user_id payment_id amount currency invoice_url).2 = false →
  (add_payment st now user_id payment_id amount currency invoice_url).1 = st.
Proof.
  unfold add_payment. repeat (case_decide; [done|]).
  by destruct (payments st !! payment_id).
Qed.

Lemma add_payment_success st now user_id payment_id amount currency invoice_url :
  (add_payment st now user_id payment_id amount currency invoice_url).2 = true →
  0 < amount ∧
  ∃ p, payments (add_payment st now user_id payment_id amount currency invoice_url).1
         !! payment_id = Some p ∧
       (payments st !! payment_id = None →
        p = mk_payment user_id amount currency "pending" invoice_url now now).
Proof.
  unfold add_payment. repeat (case_decide; [done|]).
  assert (0 < amount) by lia. split; [done|].
  destruct (payments st !! payment_id) as [p|] eqn:Hp; simpl.
  - exists p. by rewrite Hp.
  - eexists. by rewrite lookup_insert_eq.
Qed.

Section Invoices.

Variable post : nat → http_outcome.
Variable json_error_is_request_exception : bool.

Local Abbreviation attempts_from :=
  (create_invoice_attempts post json_error_is_request_exception).
Local Abbreviation invoice_for := (create_invoice post json_error_is_request_exception).
Local Abbreviation ends_at := (ends_at post).
Local Abbreviation retryable := (retryable json_error_is_request_exception).

Lemma create_invoice_step st now amount user_id currency attempt rest retry_delay :
  let r := attempts_from st now amount user_id currency (attempt :: rest) retry_delay in
  let r' := attempts_from st now amount user_id currency rest (retry_delay * 2) in
  (¬ (retryable (post attempt) ∧ (attempt < max_retries - 1)%nat) ∧
   ends_at st now amount user_id currency attempt r) ∨
  (retryable (post attempt) ∧ (attempt < max_retries - 1)%nat ∧
   r = (r'.1.1, r'.1.2, Posted (Z.abs amount) :: Slept retry_delay :: r'.2)).
Proof.
  simpl.
  assert (Hfail : ∀ e, e ≠ RetriesExhausted →
    ends_at st now amount user_id currency attempt (st, inl e, [Posted (Z.abs amount)])).
  { intros e He. left. by exists e. }
  assert (Hretry : ∀ e, e ≠ RetriesExhausted → retryable (post attempt) →
    let r :=
      if decide (attempt < max_retries - 1)%nat then
        let '(st', r, tr) :=
          attempts_from st now amount user_id currency rest (retry_delay * 2) in
        (st', r, Posted (Z.abs amount) :: Slept retry_delay :: tr)
      else (st, inl e, [Posted (Z.abs amount)]) in
    let r' := attempts_from st now amount user_id currency rest (retry_delay * 2) in
    (¬ (retryable (post attempt) ∧ (attempt < max_retries - 1)%nat) ∧
     ends_at st now amount user_id currency attempt r) ∨
    (retryable (post attempt) ∧ (attempt < max_retries - 1)%nat ∧
     r = (r'.1.1, r'.1.2, Posted (Z.abs amount) :: Slept retry_delay :: r'.2))).
  { intros e He Hr. simpl. case_decide as Hlt.
    - right. split; [done|]. split; [done|].
      by destruct (create_invoice_attempts _ _ _ _ _ _ _ _ _) as [[? ?] ?].
    - left. split; [by intros [_ ?]|]. by apply Hfail. }
  destruct (post attempt) as [status_code body| | |msg|msg] eqn:Hpost;
    try (apply Hretry; done).
  2:{ left. split; [by intros [[] _]|]. by apply Hfail. }
  destruct (decide (status_code = 200)) as [->|H200].
  { destruct body as [data|].
    - left. split; [intros [[?|[[? _]|(_ & ? & _)]] _]; done|].
      destruct (validate_invoice_response data) as [d|[payment_id invoice_url]] eqn:Hv;
        [by apply Hfail|].
      destruct (add_payment st now user_id payment_id amount currency invoice_url)
        as [st1 saved] eqn:Hadd.
      destruct saved.
      + right. exists data, payment_id, invoice_url. rewrite Hadd. done.
      + pose proof (add_payment_failure st now user_id payment_id amount currency
                      invoice_url) as Hsame.
        rewrite Hadd in Hsame. simpl in Hsame. rewrite Hsame by done.
        by apply Hfail.
    - destruct json_error_is_request_exception eqn:Hflag.
      + apply Hretry; [done|]. right. right. done.
      + left. split; [|by apply Hfail].
        intros [[?|[[? _]|(_ & _ & ?)]] _]; [done|done|congruence]. }
  destruct (decide (status_code = 401)) as [->|H401].
  { left. split; [|by apply Hfail]. intros [[?|[[_ ?]|[? _]]] _]; done. }
  destruct (decide (status_code = 403)) as [->|H403].
  { left. split; [|by apply Hfail]. intros [[?|[[_ ?]|[? _]]] _]; done. }
  destruct (decide (status_code = 429)) as [->|H429].
  { apply Hretry; [done|]. by left. }
  destruct (decide (500 ≤ status_code)) as [H500|H500].
  { apply Hretry; [done|]. right. left. done. }
  left. split; [|by apply Hfail]. intros [[?|[[_ ?]|[? _]]] _]; done.
Qed.

(** A run of [create_invoice] ends with the request of attempt 0, 1 or 2,
    after retryable outcomes of all earlier attempts. *)
Lemma create_invoice_run st now amount user_id currency :
  let r := invoice_for st now amount user_id currency in
  let a := Z.abs amount in
  ∃ attempt waits,
    r.2 = waits ++ [Posted a] ∧
    ends_at st now amount user_id currency attempt (r.1.1, r.1.2, [Posted a]) ∧
    ((attempt = 0%nat ∧ waits = [] ∧ ¬ retryable (post 0)) ∨
     (attempt = 1%nat ∧ waits = [Posted a; Slept 2] ∧
      retryable (post 0) ∧ ¬ retryable (post 1)) ∨
     (attempt = 2%nat ∧ waits = [Posted a; Slept 2; Posted a; Slept 4] ∧
      retryable (post 0) ∧ retryable (post 1))).
Proof.
  unfold create_invoice. simpl seq.
  assert (Hend : ∀ attempt r,
    ends_at st now amount user_id currency attempt r →
    r.2 = [Posted (Z.abs amount)] ∧
    ends_at st now amount user_id currency attempt (r.1.1, r.1.2, [Posted (Z.abs amount)])).
  { intros attempt r [(e & -> & He)|(data & pid & url & H1 & H2 & H3 & ->)]; simpl;
      (split; [done|]); [left; by exists e|right; by exists data, pid, url]. }
  assert (Hlt : ∀ n, (n < 2)%nat → (n < max_retries - 1)%nat) by (unfold max_retries; lia).
  pose proof (create_invoice_step st now amount user_id currency 0 [1%nat; 2%nat] 2) as S0.
  pose proof (create_invoice_step st now amount user_id currency 1 [2%nat] (2 * 2)) as S1.
  pose proof (create_invoice_step st now amount user_id currency 2 [] (2 * 2 * 2)) as S2.
  cbv zeta in S0, S1, S2.
  set (r0 := create_invoice_attempts _ _ st now amount user_id currency [0%nat; 1%nat; 2%nat] 2) in *.
  set (r1 := create_invoice_attempts _ _ st now amount user_id currency [1%nat; 2%nat] (2 * 2)) in *.
  set (r2 := create_invoice_attempts _ _ st now amount user_id currency [2%nat] (2 * 2 * 2)) in *.
  clearbody r0 r1 r2.
  destruct S0 as [[Hno H0]|(Hr0 & _ & ->)].
  { destruct (Hend _ _ H0) as [Htr Hfin]. exists 0%nat, []. split; [done|].
    split; [done|]. left. split; [done|]. split; [done|].
    intros Hr. apply Hno. split; [done|]. apply Hlt. lia. }
  cbn [fst snd].
  destruct S1 as [[Hno H1]|(Hr1 & _ & ->)].
  { destruct (Hend _ _ H1) as [Htr Hfin]. exists 1%nat, [Posted (Z.abs amount); Slept 2].
    rewrite Htr. split; [done|]. split; [done|]. right. left.
    do 3 (split; [done|]). intros Hr. apply Hno. split; [done|]. apply Hlt. lia. }
  cbn [fst snd].
  destruct S2 as [[_ H2]|(_ & Hlt2 & _)]; [|unfold max_retries in Hlt2; lia].
  destruct (Hend _ _ H2) as [Htr Hfin].
  exists 2%nat, [Posted (Z.abs amount); Slept 2; Posted (Z.abs amount); Slept (2 * 2)].
  rewrite Htr. split; [done|]. split; [done|]. right. right. done.
Qed.

(** X11. [create_invoice] sends one, two or three requests: a second one,
    after 2 seconds, exactly when the first outcome is retryable (status
    429, a status from 500 on, a timeout, a connection error or another
    request exception), and a third one, after 4 more seconds, exactly when
    the second outcome is retryable too.  Statuses 401, 403 and the other
    statuses below 500 are never retried.  The error raised after the
    loop, for exhausted retries, is never the result. *)
Theorem create_invoice_retries st now amount user_id currency :
  let r := invoice_for st now amount user_id currency in
  let a := Z.abs amount in
  ((¬ retryable (post 0) ∧ r.2 = [Posted a]) ∨
   (retryable (post 0) ∧ ¬ retryable (post 1) ∧
    r.2 = [Posted a; Slept 2; Posted a]) ∨
   (retryable (post 0) ∧ retryable (post 1) ∧
    r.2 = [Posted a; Slept 2; Posted a; Slept 4; Posted a])) ∧
  r.1.2 ≠ inl RetriesExhausted ∧
  (∀ status_code body,
     status_code ≠ 200 → status_code ≠ 429 → status_code < 500 →
     ¬ retryable (HttpResponse status_code body)) ∧
  (∀ msg, ¬ retryable (HttpOtherException msg)).
Proof.
  simpl.
  destruct (create_invoice_run st now amount user_id currency)
    as (attempt & waits & Htr & Hend & Hcase). simpl in *.
  split; [|split; [|split]].
  - destruct Hcase as [(_ & -> & H0)|[(_ & -> & H0 & H1)|(_ & -> & H0 & H1)]];
      rewrite Htr; simpl; [by left|right; by left|right; by right].
  - destruct Hend as [(e & Heq & He)|(? & ? & ? & _ & _ & _ & Heq)];
      injection Heq as _ Hres; rewrite Hres; [by intros [= ->]|done].
  - intros status_code body H200 H429 H500 [?|[[_ ?]|[? _]]]; [done|lia|done].
  - by intros msg [].
Qed.

(** X12. When [create_invoice] ends in an error, the database is the one it
    was given.  When it returns an invoice, the amount is positive, the
    invoice carries the amount and currency asked for, and a payment is
    stored under its id; under an id that was free before, this is a
    'pending' row with the user, amount, currency and URL of the invoice.
    So an amount that is not positive never yields an invoice, although
    the request for it is sent. *)
Theorem create_invoice_stores_payment st now amount user_id currency :
  let r := invoice_for st now amount user_id currency in
  (∀ e, r.1.2 = inl e → r.1.1 = st) ∧
  (∀ inv, r.1.2 = inr inv →
     0 < amount ∧ inv_amount inv = amount ∧ inv_currency inv = currency ∧
     r.1.1 =
       (add_payment st now user_id (inv_payment_id inv) amount currency
          (inv_invoice_url inv)).1 ∧
     ∃ p, payments r.1.1 !! inv_payment_id inv = Some p ∧
          (payments st !! inv_payment_id inv = None →
           p = mk_payment user_id amount currency "pending" (inv_invoice_url inv)
                 now now)) ∧
  (amount ≤ 0 → ∃ e, r.1.2 = inl e) ∧
  (∃ tr, r.2 = Posted (Z.abs amount) :: tr).
Proof.
  simpl.
  destruct (create_invoice_run st now amount user_id currency)
    as (attempt & waits & Htr & Hend & Hcase). simpl in *.
  assert (Hsent : ∃ tr,
    (invoice_for st now amount user_id currency).2 = Posted (Z.abs amount) :: tr).
  { rewrite Htr.
    destruct Hcase as [(_ & -> & _)|[(_ & -> & _)|(_ & -> & _)]]; simpl; eauto. }
  destruct Hend as [(e & Heq & He)|(data & pid & url & _ & _ & Hadd & Heq)];
    injection Heq as Hdb Hres; rewrite Hdb, Hres.
  - split; [done|]. split; [done|]. split; [by exists e|done].
  - destruct (add_payment_success _ _ _ _ _ _ _ Hadd) as [Hpos Hstored].
    split; [done|]. split; [|split; [lia|done]].
    intros inv [= <-]. simpl. done.
Qed.

End Invoices.

(** ** payment_monitor.py: checks against the processor *)

Lemma extract_payment_status_empty : extract_payment_status ∅ = None.
Proof. done. Qed.

Lemma valid_status_confirmed : "confirmed" ∈ valid_statuses.
Proof. unfold valid_statuses. rewrite !elem_of_cons. tauto. Qed.

Lemma valid_status_expired : "expired" ∈ valid_statuses.
Proof. unfold valid_statuses. rewrite !elem_of_cons. tauto. Qed.

Lemma update_payment_status_dom st now payment_id status :
  dom (payments (update_payment_status st now payment_id status).1) = dom (payments st).
Proof.
  unfold update_payment_status.
  repeat (case_decide; [done|]). case_decide; [|done].
  destruct (payments st !! payment_id) as [p|] eqn:Hp; [|done]. simpl.
  case_decide; [done|]. simpl. apply dom_insert_lookup_L. by rewrite Hp.
Qed.

Section Checks.

Variable verify_payment : string → option json_object.

Local Abbreviation check := (_check_single_payment verify_payment).
Local Abbreviation cycle := (_check_pending_payments verify_payment).
Local Abbreviation force_check := (force_check_payment verify_payment).

(** X13. A payment at most 24 hours old, checked against a processor that
    cannot be reached, answers with an empty object, reports no status,
    reports the status the checked row has, or reports a status that is
    none of the six: the processor is asked once and the database stays as
    it was. *)
Theorem check_without_news_changes_nothing st now payment_id p :
  payment_id ≠ "" →
  now - p_created_at p ≤ hours_24 →
  match verify_payment payment_id with
  | None => True
  | Some info =>
      match extract_payment_status info with
      | None => True
      | Some status => status = p_status p ∨ status ∉ valid_statuses
      end
  end →
  check st now (payment_id, p) = (st, [RemoteStatusQuery payment_id]).
Proof.
  intros Hid Hfresh Hnews. unfold _check_single_payment. simpl.
  rewrite decide_False by done. rewrite decide_False by lia.
  destruct (verify_payment payment_id) as [info|]; [|done].
  case_decide; [done|].
  destruct (extract_payment_status info) as [status|]; [|done].
  case_decide as Hdiff; [|done].
  destruct Hnews as [Hsame|Hbad]; [done|].
  rewrite update_payment_status_invalid by done. simpl.
  rewrite decide_False; [done|].
  intros ->. apply Hbad, valid_status_confirmed.
Qed.

(** X14. [force_check_payment] on an unknown id returns false and changes
    nothing.  On a stored payment created more than 24 hours before, of
    whatever status, it returns true, sets the status to 'expired' without
    asking the processor, and changes no balance: the age rule does not
    look at the status, so a 'confirmed' payment becomes 'expired'. *)
Theorem force_check_expires_any_status st now payment_id :
  (payments st !! payment_id = None → force_check st now payment_id = (st, false, [])) ∧
  (∀ p, payments st !! payment_id = Some p →
     payment_id ≠ "" →
     now - p_created_at p > hours_24 →
     let r := force_check st now payment_id in
     r.1.2 = true ∧ r.2 = [] ∧ users r.1.1 = users st ∧
     (p_status <$> payments r.1.1 !! payment_id) = Some "expired").
Proof.
  unfold force_check_payment, get_payment_by_id. split; [by intros ->|].
  intros p Hp Hid Hold. rewrite Hp. unfold _check_single_payment. simpl.
  rewrite decide_False by done. rewrite decide_True by done. simpl.
  rewrite (update_payment_status_stored st now payment_id "expired" p)
    by (done || apply valid_status_expired).
  destruct (decide (p_status p = "expired")) as [Hexp|Hne]; simpl.
  - repeat split. by rewrite Hp, <- Hexp.
  - repeat split. by rewrite lookup_insert_eq.
Qed.

(** X15. A stored payment that is not 'pending' is out of reach of the
    polling cycle: the cycle leaves its row as it is and never asks the
    processor about it, whatever the processor would report.  An id under
    which nothing is stored stays unused. *)
Theorem cycle_skips_settled_payments st now payment_id :
  (∀ p, payments st !! payment_id = Some p → p_status p ≠ "pending" →
     payments (_check_pending_payments verify_payment st now).1 !! payment_id = Some p ∧
     (RemoteStatusQuery payment_id ∉ (_check_pending_payments verify_payment st now).2)) ∧
  (payments st !! payment_id = None →
   payments (_check_pending_payments verify_payment st now).1 !! payment_id = None).
Proof.
  assert (Hout : ∀ o,
    payments st !! payment_id = o →
    (∀ p, o = Some p → p_status p ≠ "pending") →
    payments (cycle st now).1 !! payment_id = o ∧
    (RemoteStatusQuery payment_id ∉ (cycle st now).2)).
  { intros o Ho Hsettled.
    assert (Hnot : payment_id ∉ examined_payments st).
    { intros (p & Hp & Hpending)%elem_of_examined_payments.
      apply (Hsettled p); [congruence|done]. }
    unfold _check_pending_payments. split.
    - rewrite check_each_other by done. done.
    - intros Hq. apply Hnot. by eapply check_each_queries. }
  split.
  - intros p Hp Hs. apply (Hout (Some p) Hp). by intros ? [= <-].
  - intros Hp. by apply (Hout None Hp).
Qed.

End Checks.

Lemma check_without_news_witness :
  _check_single_payment unreachable_processor pending_store 3600 ("pay_1", pending_payment)
  = (pending_store, [RemoteStatusQuery "pay_1"]).
Proof.
  apply (check_without_news_changes_nothing unreachable_processor pending_store 3600
           "pay_1" pending_payment); [discriminate|vm_compute; discriminate|exact I].
Defined.

(** ** Webhook and poller on the same payment *)

Section TwoSources.

Variable WEBHOOK_SECRET : string.
Variable hmac_sha512_hex : string → string → string.
Variable json_loads : string → option json_object.
Variable verify_payment : string → option json_object.

Local Abbreviation process := (process_webhook WEBHOOK_SECRET hmac_sha512_hex json_loads).
Local Abbreviation force_check := (force_check_payment verify_payment).

Lemma confirmed_and_credited_spec st now payment_id p :
  0 ≤ balance_of st (p_user_id p) + p_amount p →
  let st' := confirmed_and_credited st now payment_id p in
  balance_of st' (p_user_id p) = balance_of st (p_user_id p) + p_amount p ∧
  payments st' !! payment_id =
    Some (mk_payment (p_user_id p) (p_amount p) (p_currency p) "confirmed"
            (p_invoice_url p) (p_created_at p) now) ∧
  (update_balance
     (set_payments st
        (<[payment_id :=
             mk_payment (p_user_id p) (p_amount p) (p_currency p) "confirmed"
               (p_invoice_url p) (p_created_at p) now]> (payments st)))
     now (p_user_id p) (p_amount p)).2 = true.
Proof.
  intros Hge. unfold confirmed_and_credited.
  set (st1 := set_payments st _).
  destruct (update_balance_credit st1 now (p_user_id p) (p_amount p)) as [Hok Hbal];
    [done|].
  pose proof (update_balance_tables st1 now (p_user_id p) (p_amount p)) as (_ & _ & Hpay).
  simpl in *. split; [done|]. split; [|done].
  rewrite Hpay. subst st1. simpl. by rewrite lookup_insert_eq.
Qed.

(** X16. A 'pending' payment that both the processor's status query and a
    verified webhook report as 'confirmed' is credited once, in either
    order: after a forced check, the webhook finds the payment 'confirmed'
    and returns true without touching anything; after the webhook, the
    forced check asks the processor, hears nothing new and touches
    nothing.  The balance ends at the old balance plus the amount in both
    orders. *)
Theorem two_sources_credit_once
    st now1 now2 payload signature data info payment_id p :
  verify_webhook_signature WEBHOOK_SECRET hmac_sha512_hex payload signature = true →
  json_loads payload = Some data →
  extract_payment_id data = Some payment_id →
  extract_payment_status data = Some "confirmed" →
  verify_payment payment_id = Some info →
  extract_payment_status info = Some "confirmed" →
  payments st !! payment_id = Some p →
  p_status p = "pending" →
  p_user_id p ≠ 0 → 0 < p_amount p →
  0 ≤ balance_of st (p_user_id p) →
  now1 - p_created_at p ≤ hours_24 →
  now2 - p_created_at p ≤ hours_24 →
  let polled := force_check st now1 payment_id in
  let then_notified := process polled.1.1 now2 payload signature in
  let notified := process st now1 payload signature in
  let then_polled := force_check notified.1.1 now2 payment_id in
  polled.1.1 = confirmed_and_credited st now1 payment_id p ∧
  then_notified = (polled.1.1, true, []) ∧
  notified.1.1 = confirmed_and_credited st now1 payment_id p ∧
  then_polled = (notified.1.1, true, [RemoteStatusQuery payment_id]) ∧
  balance_of then_notified.1.1 (p_user_id p) = balance_of st (p_user_id p) + p_amount p ∧
  balance_of then_polled.1.1 (p_user_id p) = balance_of st (p_user_id p) + p_amount p.
Proof.
  intros Hsig Hload Hid Hst Hremote Hrst Hp Hpending Hu Ha Hbal Hf1 Hf2.
  pose proof (extract_payment_id_truthy _ _ Hid) as Hne.
  assert (Hinfo : info ≠ ∅).
  { intros ->. by rewrite extract_payment_status_empty in Hrst. }
  destruct (confirmed_and_credited_spec st now1 payment_id p) as (Hcred & Hrow & Hok);
    [lia|].
  set (st' := confirmed_and_credited st now1 payment_id p) in *.
  (* the forced check on the pending payment *)
  assert (Hpolled : force_check st now1 payment_id =
    (st', true, [RemoteStatusQuery payment_id;
                 PaymentConfirmedMessage (p_user_id p) (p_amount p) payment_id])).
  { unfold force_check_payment, get_payment_by_id. rewrite Hp.
    unfold _check_single_payment. simpl.
    rewrite decide_False by done. rewrite decide_False by lia.
    rewrite Hremote. rewrite decide_False by done. rewrite Hrst.
    destruct (decide ("confirmed" ≠ p_status p)) as [_|Hc];
      [|exfalso; apply Hc; rewrite Hpending; discriminate].
    simpl.
    rewrite (update_payment_status_stored st now1 payment_id "confirmed" p)
      by (done || apply valid_status_confirmed).
    rewrite decide_False by (rewrite Hpending; discriminate). simpl.
    unfold _process_confirmed_payment. simpl.
    rewrite !bool_decide_eq_true_2 by (done || lia). simpl.
    subst st'. unfold confirmed_and_credited.
    destruct (update_balance _ _ _ _) as [st2 ok]. simpl in *. by subst ok. }
  (* the webhook on the pending payment *)
  assert (Hnotified : process st now1 payload signature =
    (st', true, [PaymentConfirmedMessage (p_user_id p) (p_amount p) payment_id])).
  { unfold process_webhook. rewrite Hsig, Hload. simpl.
    rewrite (validate_webhook_payload_ok _ _ _ Hid Hst).
    unfold get_payment_by_id. rewrite Hp.
    rewrite decide_False by (rewrite Hpending; discriminate).
    rewrite (update_payment_status_stored st now1 payment_id "confirmed" p)
      by (done || apply valid_status_confirmed).
    rewrite decide_False by (rewrite Hpending; discriminate). simpl.
    rewrite !bool_decide_eq_true_2 by (done || lia). simpl.
    subst st'. unfold confirmed_and_credited.
    destruct (update_balance _ _ _ _) as [st2 ok]. simpl in *. by subst ok. }
  (* the webhook on the confirmed payment *)
  assert (Hdup : process st' now2 payload signature = (st', true, [])).
  { unfold process_webhook. rewrite Hsig, Hload. simpl.
    rewrite (validate_webhook_payload_ok _ _ _ Hid Hst).
    unfold get_payment_by_id. rewrite Hrow. simpl. done. }
  (* the forced check on the confirmed payment *)
  assert (Hrecheck : force_check st' now2 payment_id =
    (st', true, [RemoteStatusQuery payment_id])).
  { unfold force_check_payment, get_payment_by_id. rewrite Hrow.
    unfold _check_single_payment. simpl.
    rewrite decide_False by done. rewrite decide_False by lia.
    rewrite Hremote. rewrite decide_False by done. rewrite Hrst. simpl. done. }
  simpl. rewrite Hpolled, Hnotified. simpl. rewrite Hdup, Hrecheck. simpl.
  repeat split; done.
Qed.

End TwoSources.

Lemma two_sources_credit_once_witness :
  let polled := force_check_payment confirming_processor pending_store 100 "pay_1" in
  let then_notified :=
    process_webhook "secret" demo_hmac demo_loads polled.1.1 200 "body-1" "secret:body-1" in
  let notified :=
    process_webhook "secret" demo_hmac demo_loads pending_store 100 "body-1" "secret:body-1" in
  let then_polled := force_check_payment confirming_processor notified.1.1 200 "pay_1" in
  polled.1.1 = confirmed_and_credited pending_store 100 "pay_1" pending_payment ∧
  then_notified = (polled.1.1, true, []) ∧
  notified.1.1 = confirmed_and_credited pending_store 100 "pay_1" pending_payment ∧
  then_polled = (notified.1.1, true, [RemoteStatusQuery "pay_1"]) ∧
  balance_of then_notified.1.1 7 = balance_of pending_store 7 + 50 ∧
  balance_of then_polled.1.1 7 = balance_of pending_store 7 + 50.
Proof.
  apply (two_sources_credit_once "secret" demo_hmac demo_loads confirming_processor
           pending_store 100 200 "body-1" "secret:body-1" demo_notification
           {[ "id" := "pay_1"; "status" := "confirmed" ]} "pay_1" pending_payment);
    try reflexivity; try discriminate.
Defined.

(** ** admin.py: decisions are final *)

(** X17. A withdrawal request is decided at most once: after
    [approve_withdrawal] or [reject_withdrawal] has succeeded on a pending
    request, every further approval or rejection of it returns false and
    changes nothing, so a rejected request is refunded no second time and
    an approved one is never refunded.  An id that names no request is
    refused the same way. *)
Theorem withdrawal_decided_once st now now' withdrawal_id admin_notes admin_notes' :
  (row_at (withdrawal_history st) withdrawal_id = None →
   approve_withdrawal st now withdrawal_id admin_notes = (st, false) ∧
   reject_withdrawal st now withdrawal_id admin_notes = (st, false)) ∧
  (∀ w, row_at (withdrawal_history st) withdrawal_id = Some w →
     w_status w = "pending" →
     let approved := approve_withdrawal st now withdrawal_id admin_notes in
     let rejected := reject_withdrawal st now withdrawal_id admin_notes in
     approved.2 = true ∧ rejected.2 = true ∧
     approve_withdrawal approved.1 now' withdrawal_id admin_notes' = (approved.1, false) ∧
     reject_withdrawal approved.1 now' withdrawal_id admin_notes' = (approved.1, false) ∧
     approve_withdrawal rejected.1 now' withdrawal_id admin_notes' = (rejected.1, false) ∧
     reject_withdrawal rejected.1 now' withdrawal_id admin_notes' = (rejected.1, false)).
Proof.
  split.
  - intros Hnone. unfold approve_withdrawal, reject_withdrawal. by rewrite Hnone.
  - intros w Hw Hpending.
    assert (Hsettled : ∀ st1 s,
      s ≠ "pending" →
      row_at (withdrawal_history st1) withdrawal_id =
        Some (mk_withdrawal (w_user_id w) (w_amount w) s admin_notes now) →
      approve_withdrawal st1 now' withdrawal_id admin_notes' = (st1, false) ∧
      reject_withdrawal st1 now' withdrawal_id admin_notes' = (st1, false)).
    { intros st1 s Hs Hrow. unfold approve_withdrawal, reject_withdrawal.
      rewrite Hrow. simpl. by rewrite !decide_True by done. }
    pose proof (update_balance_tables st now (w_user_id w) (w_amount w)) as (Hwh & _ & _).
    simpl in Hwh.
    set (st_a :=
      set_withdrawal_history st
        (set_row_at (withdrawal_history st) withdrawal_id
           (mk_withdrawal (w_user_id w) (w_amount w) "approved" admin_notes now))).
    set (st_r :=
      set_withdrawal_history (update_balance st now (w_user_id w) (w_amount w)).1
        (set_row_at (withdrawal_history (update_balance st now (w_user_id w) (w_amount w)).1)
           withdrawal_id
           (mk_withdrawal (w_user_id w) (w_amount w) "rejected" admin_notes now))).
    assert (Happ : approve_withdrawal st now withdrawal_id admin_notes = (st_a, true)).
    { unfold approve_withdrawal. rewrite Hw.
      by rewrite decide_False by (intros H; by apply H). }
    assert (Hrej : reject_withdrawal st now withdrawal_id admin_notes = (st_r, true)).
    { unfold reject_withdrawal. rewrite Hw.
      by rewrite decide_False by (intros H; by apply H). }
    destruct (Hsettled st_a "approved") as [H1 H2];
      [done|subst st_a; simpl; by eapply row_at_set_row_at|].
    destruct (Hsettled st_r "rejected") as [H3 H4];
      [done|subst st_r; simpl; rewrite Hwh; by eapply row_at_set_row_at|].
    simpl. rewrite Happ, Hrej. simpl. done.
Qed.

(** X18. [resolve_dispute] refuses, with the database untouched, an id
    that names no deal, a deal that is not 'disputed' and a resolution
    other than 'refund_buyer' and 'pay_seller'.  On a disputed deal either
    resolution succeeds and leaves the deal 'cancelled' or 'completed', and
    every further resolution of the same deal is refused, so the balance
    movement of a resolution happens at most once. *)
Theorem dispute_resolved_once st now now' deal_id resolution resolution'
    admin_notes admin_notes' :
  let r := resolve_dispute st now deal_id resolution admin_notes in
  (row_at (deals st) deal_id = None → r = (st, false)) ∧
  (∀ deal, row_at (deals st) deal_id = Some deal →
     (d_status deal ≠ "disputed" → r = (st, false)) ∧
     (resolution ≠ "refund_buyer" → resolution ≠ "pay_seller" → r = (st, false)) ∧
     (d_status deal = "disputed" →
      resolution = "refund_buyer" ∨ resolution = "pay_seller" →
      r.2 = true ∧
      row_at (deals r.1) deal_id =
        Some (resolved_deal deal now
                (if decide (resolution = "refund_buyer") then "cancelled" else "completed")
                admin_notes) ∧
      resolve_dispute r.1 now' deal_id resolution' admin_notes' = (r.1, false))).
Proof.
  simpl. split.
  - intros Hnone. unfold resolve_dispute. by rewrite Hnone.
  - intros deal Hd. split; [|split].
    + intros Hs. unfold resolve_dispute. rewrite Hd. by rewrite decide_True.
    + intros H1 H2. unfold resolve_dispute. rewrite Hd.
      case_decide; [done|]. by rewrite !decide_False.
    + intros Hs Hres.
      assert (Hfinal : ∀ st1 status,
        status ≠ "disputed" →
        row_at (deals st1) deal_id = Some (resolved_deal deal now status admin_notes) →
        resolve_dispute st1 now' deal_id resolution' admin_notes' = (st1, false)).
      { intros st1 status Hne Hrow. unfold resolve_dispute. rewrite Hrow. simpl.
        by rewrite decide_True. }
      destruct Hres as [-> | ->]; simpl.
      * pose proof (update_balance_tables st now (buyer_id deal) (d_amount deal))
          as (_ & Hdeals & _). simpl in Hdeals.
        set (st1 := (update_balance st now (buyer_id deal) (d_amount deal)).1) in *.
        assert (Hrun : resolve_dispute st now deal_id "refund_buyer" admin_notes =
          (set_deals st1
             (set_row_at (deals st1) deal_id
                (resolved_deal deal now "cancelled" admin_notes)), true)).
        { unfold resolve_dispute. rewrite Hd.
          by rewrite decide_False by (intros H; by apply H). }
        rewrite Hrun. simpl.
        assert (Hrow : row_at
          (set_row_at (deals st1) deal_id (resolved_deal deal now "cancelled" admin_notes))
          deal_id = Some (resolved_deal deal now "cancelled" admin_notes)).
        { rewrite Hdeals. by eapply row_at_set_row_at. }
        split; [done|]. split; [done|].
        apply (Hfinal _ "cancelled"); [done|exact Hrow].
      * pose proof (update_balance_tables st now (buyer_id deal) (- d_amount deal))
          as (_ & Hdeals & _). simpl in Hdeals.
        set (st1 := (update_balance st now (buyer_id deal) (- d_amount deal)).1) in *.
        assert (Hrun : resolve_dispute st now deal_id "pay_seller" admin_notes =
          (set_deals st1
             (set_row_at (deals st1) deal_id
                (resolved_deal deal now "completed" admin_notes)), true)).
        { unfold resolve_dispute. rewrite Hd.
          by rewrite decide_False by (intros H; by apply H). }
        rewrite Hrun. simpl.
        assert (Hrow : row_at
          (set_row_at (deals st1) deal_id (resolved_deal deal now "completed" admin_notes))
          deal_id = Some (resolved_deal deal now "completed" admin_notes)).
        { rewrite Hdeals. by eapply row_at_set_row_at. }
        split; [done|]. split; [done|].
        apply (Hfinal _ "completed"); [done|exact Hrow].
Qed.

Section AdminBalance.

Variable ADMIN_USER_ID : Z.

(** X19. [update_user_balance] refuses every id but the admin's, and for
    the admin's id it is [update_balance] on the admin's own account: no
    call changes the account of any other user. *)
Theorem admin_adjusts_own_account_only st now user_id amount :
  let r := update_user_balance ADMIN_USER_ID st now user_id amount in
  (user_id ≠ ADMIN_USER_ID → r = (st, false)) ∧
  (user_id = ADMIN_USER_ID → r = update_balance st now ADMIN_USER_ID amount) ∧
  (∀ other, other ≠ ADMIN_USER_ID → users r.1 !! other = users st !! other) ∧
  withdrawal_history r.1 = withdrawal_history st ∧
  deals r.1 = deals st ∧ payments r.1 = payments st.
Proof.
  unfold update_user_balance, is_admin. simpl.
  destruct (decide (user_id = ADMIN_USER_ID)) as [->|Hne].
  - rewrite bool_decide_eq_true_2 by done. simpl.
    pose proof (update_balance_tables st now ADMIN_USER_ID amount) as (Hw & Hd & Hp).
    simpl in *. repeat split; try done.
    intros other Hother. by apply update_balance_other.
  - rewrite bool_decide_eq_false_2 by done. simpl. done.
Qed.

End AdminBalance.

Lemma archive_payment_later t t' p :
  t ≤ t' → archive_payment t' (archive_payment t p) = archive_payment t' p.
Proof.
  intros Hle. unfold archive_payment at 2.
  case_decide as H; [|done].
  destruct H as [Hin Hold]. unfold archive_payment. simpl.
  rewrite decide_True; [done|]. split; [done|lia].
Qed.

Lemma archive_deal_later t t' deal :
  t ≤ t' → archive_deal t' (archive_deal t deal) = archive_deal t' deal.
Proof.
  intros Hle. unfold archive_deal at 2.
  destruct (completed_at deal) as [c|] eqn:Hc; [|done].
  case_decide as H; [|done].
  destruct H as [Hs Hold]. unfold archive_deal. simpl. rewrite Hc.
  rewrite decide_True; [done|]. split; [done|lia].
Qed.

(** X20. [cleanup_old_data] touches no account and no withdrawal request,
    keeps the set of 'pending' payments (what the poller examines) as it
    is, and composes: cleaning at one time and again at a later time gives
    the database that cleaning once at the later time gives, so an
    immediate second run changes nothing. *)
Theorem cleanup_composes st now now' :
  now ≤ now' →
  let r := cleanup_old_data st now in
  r.2 = true ∧
  users r.1 = users st ∧ withdrawal_history r.1 = withdrawal_history st ∧
  (∀ payment_id p, (payment_id, p) ∈ get_pending_payments r.1 ↔
                   (payment_id, p) ∈ get_pending_payments st) ∧
  cleanup_old_data r.1 now' = cleanup_old_data st now' ∧
  cleanup_old_data r.1 now = r.
Proof.
  intros Hle. unfold cleanup_old_data. simpl.
  split; [done|]. split; [done|]. split; [done|]. split; [|split].
  - intros payment_id p. rewrite !elem_of_get_pending_payments. simpl.
    rewrite lookup_fmap. split.
    + intros [Hq Hpending].
      destruct (payments st !! payment_id) as [q|] eqn:Hst; [|done].
      simpl in Hq. injection Hq as <-.
      destruct (archive_payment_status (now - days_30) q) as [Hsame|(_ & _ & Harch)].
      * rewrite Hsame in *. done.
      * by rewrite Harch in Hpending.
    + intros [Hq Hpending]. rewrite Hq. simpl. split; [|done]. f_equal.
      unfold archive_payment. rewrite decide_False; [done|].
      intros [Hin _]. rewrite Hpending in Hin.
      rewrite !elem_of_cons, elem_of_nil in Hin.
      destruct Hin as [?|[?|[]]]; discriminate.
  - f_equal. f_equal.
    + rewrite <- list_fmap_compose. apply list_fmap_ext.
      intros i deal _. simpl. apply archive_deal_later. lia.
    + rewrite <- map_fmap_compose. apply map_fmap_ext.
      intros payment_id p _. simpl. apply archive_payment_later. lia.
  - f_equal. f_equal.
    + rewrite <- list_fmap_compose. apply list_fmap_ext.
      intros i deal _. simpl. apply archive_deal_later. lia.
    + rewrite <- map_fmap_compose. apply map_fmap_ext.
      intros payment_id p _. simpl. apply archive_payment_later. lia.
Qed.

Lemma cleanup_composes_witness :
  let r := cleanup_old_data settled_store (40 * 24 * 3600) in
  r.2 = true ∧
  users r.1 = users settled_store ∧
  withdrawal_history r.1 = withdrawal_history settled_store ∧
  (∀ payment_id p, (payment_id, p) ∈ get_pending_payments r.1 ↔
                   (payment_id, p) ∈ get_pending_payments settled_store) ∧
  cleanup_old_data r.1 (50 * 24 * 3600) = cleanup_old_data settled_store (50 * 24 * 3600) ∧
  cleanup_old_data r.1 (40 * 24 * 3600) = r.
Proof.
  apply (cleanup_composes settled_store (40 * 24 * 3600) (50 * 24 * 3600)).
  vm_compute. discriminate.
Defined.

(** ** bot.py: withdrawals and deals from the chat *)

Lemma get_user_tables st now user_id :
  let r := get_user st now user_id in
  users r.1 !! user_id = Some r.2 ∧
  balance r.2 = balance_of st user_id ∧
  (∀ other, balance_of r.1 other = balance_of st other) ∧
  withdrawal_history r.1 = withdrawal_history st ∧
  deals r.1 = deals st ∧
  payments r.1 = payments st.
Proof.
  unfold get_user, balance_of.
  destruct (users st !! user_id) as [u|] eqn:Hu; simpl.
  - by rewrite Hu.
  - rewrite lookup_insert_eq. repeat split; try done.
    intros other. destruct (decide (other = user_id)) as [->|Hne].
    + by rewrite lookup_insert_eq, Hu.
    + by rewrite lookup_insert_ne.
Qed.

Section ChatHandlers.

Variable parse_float : string → option Z.
Variable MAX_DEAL_AMOUNT : Z.

Local Abbreviation withdraw := (handle_withdraw parse_float).
Local Abbreviation enter_amount := (handle_deal_amount parse_float MAX_DEAL_AMOUNT).

(** A withdrawal of an amount of at least 5 that the balance covers. *)
Lemma handle_withdraw_accepted st now msg user_id amount :
  from_user_id msg = Some user_id →
  parse_float (text msg) = Some amount →
  5 ≤ amount → amount ≤ balance_of st user_id →
  let r := withdraw st now msg in
  r.1.2 = WithdrawSubmitted amount ∧ r.2 = false ∧
  withdrawal_history r.1.1 =
    withdrawal_history st ++ [mk_withdrawal user_id amount "pending" None now] ∧
  balance_of r.1.1 user_id = balance_of st user_id - amount ∧
  (∀ other, other ≠ user_id → balance_of r.1.1 other = balance_of st other) ∧
  deals r.1.1 = deals st ∧ payments r.1.1 = payments st.
Proof.
  intros Hu Hparse Hmin Hcover. unfold handle_withdraw, validate_amount.
  rewrite Hu, Hparse. rewrite decide_False by lia.
  pose proof (get_user_tables st now user_id) as (Hacc & Hb & Hbal & Hw & Hd & Hp).
  destruct (get_user st now user_id) as [st1 user]. simpl in *.
  rewrite decide_False by lia.
  destruct (update_balance_credit st1 now user_id (- amount)) as [Hok Hnew];
    [rewrite Hbal; lia|].
  pose proof (update_balance_tables st1 now user_id (- amount)) as (Hw2 & Hd2 & Hp2).
  pose proof (λ other, balance_of_other st1 now user_id (- amount) other) as Hothers.
  destruct (update_balance st1 now user_id (- amount)) as [st2 ok]. simpl in *.
  subst ok. simpl. rewrite Hw2, Hw, Hd2, Hd, Hp2, Hp.
  repeat split; try done.
  - change (balance_of st2 user_id = balance_of st user_id - amount).
    rewrite Hnew, Hbal. lia.
  - intros other Hne. change (balance_of st2 other = balance_of st other).
    by rewrite Hothers, Hbal.
Qed.

(** X21. [handle_withdraw] on a message whose text [float] turns into the
    number [amount]: below 5 the amount is rejected and above the sender's
    balance the reply is "insufficient balance", in both cases without a
    request being recorded or a balance moved; from 5 up to the balance
    exactly one 'pending' request of that amount is appended for the
    sender and the sender's balance is lowered by the amount, no other
    balance moving.  A text that is no number and a message without
    sender record nothing either.  So no request is recorded without its
    debit. *)
Theorem withdrawal_request_is_debited st now msg :
  let r := withdraw st now msg in
  let unchanged :=
    withdrawal_history r.1.1 = withdrawal_history st ∧
    ∀ other, balance_of r.1.1 other = balance_of st other in
  match from_user_id msg with
  | None => r = (st, WithdrawNoUserId, false)
  | Some user_id =>
      (parse_float (text msg) = None →
       r = (st, WithdrawAmountRejected InvalidAmountFormat, true)) ∧
      (∀ amount, parse_float (text msg) = Some amount →
         (amount < 5 → r = (st, WithdrawAmountRejected (AmountTooSmall 5), true)) ∧
         (5 ≤ amount → amount > balance_of st user_id →
          r.1.2 = WithdrawInsufficientBalance ∧ r.2 = false ∧ unchanged) ∧
         (5 ≤ amount → amount ≤ balance_of st user_id →
          r.1.2 = WithdrawSubmitted amount ∧ r.2 = false ∧
          withdrawal_history r.1.1 =
            withdrawal_history st ++ [mk_withdrawal user_id amount "pending" None now] ∧
          balance_of r.1.1 user_id = balance_of st user_id - amount ∧
          (∀ other, other ≠ user_id → balance_of r.1.1 other = balance_of st other)))
  end.
Proof.
  cbv zeta.
  destruct (from_user_id msg) as [user_id|] eqn:Hu;
    [|unfold handle_withdraw; by rewrite Hu].
  split.
  { intros Hparse. unfold handle_withdraw, validate_amount. by rewrite Hu, Hparse. }
  intros amount Hparse. split; [|split].
  - intros Hsmall. unfold handle_withdraw, validate_amount. rewrite Hu, Hparse.
    by rewrite decide_True.
  - intros Hmin Hmore. unfold handle_withdraw, validate_amount. rewrite Hu, Hparse.
    rewrite decide_False by lia.
    pose proof (get_user_tables st now user_id) as (_ & Hb & Hbal & Hw & _).
    destruct (get_user st now user_id) as [st1 user]. simpl in *.
    rewrite decide_True by lia. simpl. done.
  - intros Hmin Hcover.
    destruct (handle_withdraw_accepted st now msg user_id amount Hu Hparse Hmin Hcover)
      as (H1 & H2 & H3 & H4 & H5 & _).
    done.
Qed.

(** X22. A withdrawal request and its decision: a request accepted by
    [handle_withdraw] gets the next free id and lowers the sender's
    balance by its amount; rejecting it succeeds and credits that same
    amount to the balance the request left, approving it succeeds and
    leaves that balance as it is. *)
Theorem withdrawal_request_then_decision st now now' msg user_id amount admin_notes :
  from_user_id msg = Some user_id →
  parse_float (text msg) = Some amount →
  5 ≤ amount → amount ≤ balance_of st user_id →
  let requested := (withdraw st now msg).1.1 in
  let withdrawal_id := Z.of_nat (length (withdrawal_history st)) + 1 in
  let rejected := reject_withdrawal requested now' withdrawal_id admin_notes in
  let approved := approve_withdrawal requested now' withdrawal_id admin_notes in
  row_at (withdrawal_history requested) withdrawal_id =
    Some (mk_withdrawal user_id amount "pending" None now) ∧
  balance_of requested user_id = balance_of st user_id - amount ∧
  rejected.2 = true ∧
  balance_of rejected.1 user_id = balance_of requested user_id + amount ∧
  (w_status <$> row_at (withdrawal_history rejected.1) withdrawal_id) = Some "rejected" ∧
  approved.2 = true ∧
  balance_of approved.1 user_id = balance_of requested user_id ∧
  (w_status <$> row_at (withdrawal_history approved.1) withdrawal_id) = Some "approved".
Proof.
  intros Hu Hparse Hmin Hcover.
  destruct (handle_withdraw_accepted st now msg user_id amount Hu Hparse Hmin Hcover)
    as (_ & _ & Hhist & Hbal & _).
  simpl in *. set (requested := (withdraw st now msg).1.1) in *. clearbody requested.
  assert (Hrow : row_at (withdrawal_history requested)
                   (Z.of_nat (length (withdrawal_history st)) + 1) =
                 Some (mk_withdrawal user_id amount "pending" None now)).
  { unfold row_at. rewrite decide_True by lia. rewrite Hhist.
    replace (Z.to_nat (Z.of_nat (length (withdrawal_history st)) + 1 - 1))
      with (length (withdrawal_history st)) by lia.
    by rewrite lookup_app_r, Nat.sub_diag by lia. }
  split; [done|]. split; [done|].
  unfold reject_withdrawal, approve_withdrawal. rewrite Hrow. simpl.
  destruct (update_balance_credit requested now' user_id amount) as [_ Hrefund];
    [lia|].
  pose proof (update_balance_tables requested now' user_id amount) as (Hw & _ & _).
  simpl in Hrefund, Hw. rewrite Hw.
  repeat split.
  - change (balance_of (update_balance requested now' user_id amount).1 user_id =
            balance_of requested user_id + amount). lia.
  - by erewrite row_at_set_row_at.
  - by erewrite row_at_set_row_at.
Qed.

End ChatHandlers.

Lemma withdrawal_request_then_decision_witness :
  let st := store demo_bot in
  let requested := (handle_withdraw demo_parse st 10 (mk_message (Some 7) 7 "40")).1.1 in
  let withdrawal_id := Z.of_nat (length (withdrawal_history st)) + 1 in
  let rejected := reject_withdrawal requested 20 withdrawal_id (Some "wrong address") in
  let approved := approve_withdrawal requested 20 withdrawal_id (Some "wrong address") in
  row_at (withdrawal_history requested) withdrawal_id =
    Some (mk_withdrawal 7 40 "pending" None 10) ∧
  balance_of requested 7 = balance_of st 7 - 40 ∧
  rejected.2 = true ∧
  balance_of rejected.1 7 = balance_of requested 7 + 40 ∧
  (w_status <$> row_at (withdrawal_history rejected.1) withdrawal_id) = Some "rejected" ∧
  approved.2 = true ∧
  balance_of approved.1 7 = balance_of requested 7 ∧
  (w_status <$> row_at (withdrawal_history approved.1) withdrawal_id) = Some "approved".
Proof.
  apply (withdrawal_request_then_decision demo_parse (store demo_bot) 10 20
           (mk_message (Some 7) 7 "40") 7 40 (Some "wrong address"));
    [reflexivity|reflexivity|lia|vm_compute; discriminate].
Defined.

(** What [validate_amount] accepts: the text parses, the amount is at least
    the minimum, and it is at most the maximum unless there is none or the
    maximum is 0. *)
Lemma validate_amount_inr parse_float text min_amount max_amount amount :
  validate_amount parse_float text min_amount max_amount = inr amount ↔
  parse_float text = Some amount ∧ min_amount ≤ amount ∧
  (∀ m, max_amount = Some m → m = 0 ∨ amount ≤ m).
Proof.
  unfold validate_amount. destruct (parse_float text) as [a|]; [|split; [done|by intros [? _]]].
  destruct (decide (a < min_amount)) as [Hsmall|Hmin].
  { split; [done|]. intros (Heq & Hge & _). simplify_eq. lia. }
  destruct max_amount as [m|].
  - destruct (bool_decide (m ≠ 0)) eqn:Hm0; destruct (bool_decide (a > m)) eqn:Hgt; simpl.
    + apply bool_decide_eq_true_1 in Hm0, Hgt. split; [done|].
      intros (Heq & _ & Hmax). simplify_eq. destruct (Hmax m eq_refl); [done|lia].
    + apply bool_decide_eq_false_1 in Hgt. split.
      * intros Heq. simplify_eq. repeat split; [lia|]. intros m' [= <-]. right. lia.
      * intros (Heq & _). by simplify_eq.
    + apply bool_decide_eq_false_1 in Hm0. split.
      * intros Heq. simplify_eq. repeat split; [lia|]. intros m' [= <-]. left.
        destruct (decide (m = 0)); [done|by destruct Hm0].
      * intros (Heq & _). by simplify_eq.
    + apply bool_decide_eq_false_1 in Hm0. split.
      * intros Heq. simplify_eq. repeat split; [lia|]. intros m' [= <-]. left.
        destruct (decide (m = 0)); [done|by destruct Hm0].
      * intros (Heq & _). by simplify_eq.
  - split.
    + intros Heq. simplify_eq. repeat split; [lia|done].
    + intros (Heq & _). by simplify_eq.
Qed.

Section DealDialog.

Variable parse_float : string → option Z.
Variable MAX_DEAL_AMOUNT : Z.

Local Abbreviation enter_amount := (handle_deal_amount parse_float MAX_DEAL_AMOUNT).
Local Abbreviation validate := (validate_amount parse_float).

(** A deal amount that validates and that the balance covers, entered by a
    user whose draft holds a seller and a description. *)
Lemma handle_deal_amount_accepted bs now msg user_id amount deal_data seller descr :
  from_user_id msg = Some user_id →
  validate (text msg) 1 (Some MAX_DEAL_AMOUNT) = inr amount →
  amount ≤ balance_of (store bs) user_id →
  deal_creation_state bs !! user_id = Some deal_data →
  deal_data !! "seller_username" = Some seller →
  deal_data !! "description" = Some descr →
  let r := enter_amount bs now msg in
  r.2 = Returned ∧
  r.1.2 = [BotMessage (chat_id msg)
             (DealCreated (Z.of_nat (length (deals (store bs))) + 1) amount seller descr)] ∧
  deals (store r.1.1) =
    deals (store bs) ++
      [mk_deal user_id seller descr amount "waiting" now now None None None] ∧
  balance_of (store r.1.1) user_id = balance_of (store bs) user_id - amount ∧
  (∀ other, other ≠ user_id →
     balance_of (store r.1.1) other = balance_of (store bs) other) ∧
  withdrawal_history (store r.1.1) = withdrawal_history (store bs) ∧
  payments (store r.1.1) = payments (store bs) ∧
  deal_creation_state r.1.1 = delete user_id (deal_creation_state bs).
Proof.
  intros Hu Hv Hcover Hdraft Hseller Hdescr. unfold handle_deal_amount.
  rewrite Hu.
  pose proof (get_user_tables (store bs) now user_id) as (Hacc & Hb & Hbal & Hw & Hd & Hp).
  destruct (get_user (store bs) now user_id) as [st1 user]. simpl in *.
  rewrite Hv. rewrite decide_False by lia. rewrite Hdraft, Hseller, Hdescr. simpl.
  rewrite bool_decide_eq_true_2 by lia. simpl.
  set (st2 := set_deals st1 _).
  destruct (update_balance_credit st2 now user_id (- amount)) as [_ Hnew].
  { change (balance_of st2 user_id) with (balance_of st1 user_id). rewrite Hbal. lia. }
  pose proof (update_balance_tables st2 now user_id (- amount)) as (Hw3 & Hd3 & Hp3).
  pose proof (λ other, balance_of_other st2 now user_id (- amount) other) as Hothers.
  assert (Hst2 : ∀ other, balance_of st2 other = balance_of st1 other) by done.
  simpl in *. rewrite Hw3, Hd3, Hp3, Hd, Hw, Hp. clearbody st2.
  repeat split; try done.
  - rewrite Hnew, Hst2, Hbal. lia.
  - intros other Hne. by rewrite Hothers, Hst2, Hbal.
Qed.

(** X23. A deal and its refund: a deal entered through
    [handle_deal_amount] gets the next free id and lowers the buyer's
    balance by its amount; once the deal is put in dispute and resolved
    with 'refund_buyer', the deal is 'cancelled' and that same amount is
    credited to the balance the deal left. *)
Theorem refunded_deal_credits_deal_amount
    bs now now' now'' msg user_id amount deal_data seller descr admin_notes :
  from_user_id msg = Some user_id →
  validate (text msg) 1 (Some MAX_DEAL_AMOUNT) = inr amount →
  amount ≤ balance_of (store bs) user_id →
  deal_creation_state bs !! user_id = Some deal_data →
  deal_data !! "seller_username" = Some seller →
  deal_data !! "description" = Some descr →
  let entered := store (enter_amount bs now msg).1.1 in
  let deal_id := Z.of_nat (length (deals (store bs))) + 1 in
  let disputed := (update_deal_status entered now' deal_id "disputed" None).1 in
  let resolved := resolve_dispute disputed now'' deal_id "refund_buyer" admin_notes in
  balance_of entered user_id = balance_of (store bs) user_id - amount ∧
  (d_status <$> row_at (deals entered) deal_id) = Some "waiting" ∧
  resolved.2 = true ∧
  (d_status <$> row_at (deals resolved.1) deal_id) = Some "cancelled" ∧
  balance_of resolved.1 user_id = balance_of entered user_id + amount.
Proof.
  intros Hu Hv Hcover Hdraft Hseller Hdescr.
  destruct (handle_deal_amount_accepted bs now msg user_id amount deal_data seller descr
              Hu Hv Hcover Hdraft Hseller Hdescr)
    as (_ & _ & Hdeals & Hbal & _).
  apply validate_amount_inr in Hv as (_ & Hmin & _).
  simpl in *. set (entered := store (enter_amount bs now msg).1.1) in *.
  clearbody entered.
  set (deal := mk_deal user_id seller descr amount "waiting" now now None None None) in *.
  set (deal_id := Z.of_nat (length (deals (store bs))) + 1).
  assert (Hrow : row_at (deals entered) deal_id = Some deal).
  { unfold row_at, deal_id. rewrite decide_True by lia. rewrite Hdeals.
    replace (Z.to_nat (Z.of_nat (length (deals (store bs))) + 1 - 1))
      with (length (deals (store bs))) by lia.
    by rewrite lookup_app_r, Nat.sub_diag by lia. }
  split; [done|]. split; [by rewrite Hrow|].
  unfold update_deal_status. rewrite Hrow. simpl.
  set (disputed_deal := mk_deal _ _ _ _ "disputed" _ _ _ _ _).
  assert (Hrow2 : row_at (set_row_at (deals entered) deal_id disputed_deal) deal_id =
                  Some disputed_deal) by (by eapply row_at_set_row_at).
  unfold resolve_dispute. simpl. rewrite Hrow2. simpl.
  destruct (update_balance_credit
              (set_deals entered (set_row_at (deals entered) deal_id disputed_deal))
              now'' user_id amount) as [_ Hrefund].
  { change (0 ≤ balance_of entered user_id + amount). lia. }
  pose proof (update_balance_tables
                (set_deals entered (set_row_at (deals entered) deal_id disputed_deal))
                now'' user_id amount) as (_ & Hd2 & _).
  simpl in *. rewrite Hd2. split; [done|]. split.
  - erewrite row_at_set_row_at; [done|exact Hrow2].
  - change (balance_of
              (update_balance
                 (set_deals entered (set_row_at (deals entered) deal_id disputed_deal))
                 now'' user_id amount).1 user_id = balance_of entered user_id + amount).
    rewrite Hrefund.
    change (balance_of entered user_id + amount = balance_of entered user_id + amount).
    done.
Qed.

(** X24. The deal dialog: after "new deal", a seller name starting with
    "@", a description, and an amount that validates and that the balance
    covers, exactly one deal is stored, 'waiting', for the sender, with the
    seller name and the description as typed and the amount entered; the
    sender's balance is lowered by the amount and the draft of the sender
    is gone.  Sending the amount a second time stores no second deal and
    moves no balance. *)
Theorem deal_dialog_stores_what_was_typed
    bs user_id chat seller descr amount_text amount now now' now'' :
  String.prefix "@" seller = true →
  validate amount_text 1 (Some MAX_DEAL_AMOUNT) = inr amount →
  amount ≤ balance_of (store bs) user_id →
  let bs1 := (start_new_deal bs user_id).1 in
  let bs2 := (handle_seller_username bs1 (mk_message (Some user_id) chat seller)).1.1 in
  let bs3 := (handle_deal_description bs2 now (mk_message (Some user_id) chat descr)).1.1 in
  let created := enter_amount bs3 now' (mk_message (Some user_id) chat amount_text) in
  let again := enter_amount created.1.1 now'' (mk_message (Some user_id) chat amount_text) in
  created.2 = Returned ∧
  deals (store created.1.1) =
    deals (store bs) ++
      [mk_deal user_id seller descr amount "waiting" now' now' None None None] ∧
  balance_of (store created.1.1) user_id = balance_of (store bs) user_id - amount ∧
  deal_creation_state created.1.1 !! user_id = None ∧
  deals (store again.1.1) = deals (store created.1.1) ∧
  (∀ other, balance_of (store again.1.1) other = balance_of (store created.1.1) other).
Proof.
  intros Hat Hv Hcover. cbv zeta.
  unfold handle_seller_username, start_new_deal.
  cbn [from_user_id text chat_id fst snd store deal_creation_state].
  rewrite Hat, lookup_insert_eq.
  cbn [from_user_id text chat_id fst snd store deal_creation_state].
  unfold handle_deal_description.
  cbn [from_user_id text chat_id fst snd store deal_creation_state].
  rewrite lookup_insert_eq.
  pose proof (get_user_tables (store bs) now user_id) as (_ & _ & Hbal & _ & Hd & _).
  destruct (get_user (store bs) now user_id) as [st1 user].
  cbn [fst snd] in *.
  set (draft := <["description" := descr]> (<["seller_username" := seller]> ∅)).
  set (bs3 := mk_bot st1 _).
  assert (Hcover3 : amount ≤ balance_of (store bs3) user_id).
  { subst bs3. cbn [store]. rewrite Hbal. lia. }
  assert (Hdraft : deal_creation_state bs3 !! user_id = Some draft).
  { subst bs3. cbn [deal_creation_state]. by rewrite lookup_insert_eq. }
  assert (Hseller : draft !! "seller_username" = Some seller).
  { subst draft. rewrite lookup_insert_ne by done. by rewrite lookup_insert_eq. }
  assert (Hdescr : draft !! "description" = Some descr).
  { subst draft. by rewrite lookup_insert_eq. }
  destruct (handle_deal_amount_accepted bs3 now'
              (mk_message (Some user_id) chat amount_text) user_id amount draft seller descr
              eq_refl Hv Hcover3 Hdraft Hseller Hdescr)
    as (Hret & _ & Hdeals & Hnew & _ & _ & _ & Hstate).
  simpl in *. set (created := enter_amount bs3 now' _) in *. clearbody created.
  split; [done|]. split; [by rewrite Hdeals, Hd|].
  split; [by rewrite Hnew, Hbal|].
  assert (Hgone : deal_creation_state created.1.1 !! user_id = None).
  { rewrite Hstate. subst bs3. simpl. by rewrite lookup_delete_eq. }
  split; [done|].
  (* the amount sent again: the draft is gone *)
  unfold handle_deal_amount. simpl.
  pose proof (get_user_tables (store created.1.1) now'' user_id)
    as (_ & _ & Hbal2 & _ & Hd2 & _).
  destruct (get_user (store created.1.1) now'' user_id) as [st4 user4]. simpl in *.
  rewrite Hv. case_decide; simpl; [done|]. rewrite Hgone. simpl. done.
Qed.

End DealDialog.

Lemma refunded_deal_credits_deal_amount_witness :
  let entered :=
    store (handle_deal_amount demo_parse 1000 demo_bot 10 (mk_message (Some 7) 7 "40")).1.1 in
  let deal_id := Z.of_nat (length (deals (store demo_bot))) + 1 in
  let disputed := (update_deal_status entered 20 deal_id "disputed" None).1 in
  let resolved := resolve_dispute disputed 30 deal_id "refund_buyer" None in
  balance_of entered 7 = balance_of (store demo_bot) 7 - 40 ∧
  (d_status <$> row_at (deals entered) deal_id) = Some "waiting" ∧
  resolved.2 = true ∧
  (d_status <$> row_at (deals resolved.1) deal_id) = Some "cancelled" ∧
  balance_of resolved.1 7 = balance_of entered 7 + 40.
Proof.
  apply (refunded_deal_credits_deal_amount demo_parse 1000 demo_bot 10 20 30
           (mk_message (Some 7) 7 "40") 7 40 demo_draft "@seller" "Logo design" None);
    try reflexivity.
  vm_compute. discriminate.
Defined.

Lemma deal_dialog_stores_what_was_typed_witness :
  let bs := mk_bot (store demo_bot) ∅ in
  let bs1 := (start_new_deal bs 7).1 in
  let bs2 := (handle_seller_username bs1 (mk_message (Some 7) 7 "@seller")).1.1 in
  let bs3 := (handle_deal_description bs2 5 (mk_message (Some 7) 7 "Logo design")).1.1 in
  let created := handle_deal_amount demo_parse 1000 bs3 10 (mk_message (Some 7) 7 "40") in
  let again :=
    handle_deal_amount demo_parse 1000 created.1.1 15 (mk_message (Some 7) 7 "40") in
  created.2 = Returned ∧
  deals (store created.1.1) =
    deals (store bs) ++
      [mk_deal 7 "@seller" "Logo design" 40 "waiting" 10 10 None None None] ∧
  balance_of (store created.1.1) 7 = balance_of (store bs) 7 - 40 ∧
  deal_creation_state created.1.1 !! 7 = None ∧
  deals (store again.1.1) = deals (store created.1.1) ∧
  (∀ other, balance_of (store again.1.1) other = balance_of (store created.1.1) other).
Proof.
  apply (deal_dialog_stores_what_was_typed demo_parse 1000 (mk_bot (store demo_bot) ∅)
           7 7 "@seller" "Logo design" "40" 40 5 10 15);
    try reflexivity.
  vm_compute. discriminate.
Defined.

(** Lengths of slices and concatenations. *)
Lemma length_substring_0 n text :
  String.length (String.substring 0 n text) = (n `min` String.length text)%nat.
Proof.
  revert n. induction text as [|c text IH]; intros [|n]; simpl; try done.
  by rewrite IH.
Qed.

Lemma substring_0_min n text :
  String.substring 0 (n `min` String.length text) text = String.substring 0 n text.
Proof.
  revert n. induction text as [|c text IH]; intros [|n]; simpl; try done.
  by rewrite IH.
Qed.

Lemma length_append text1 text2 :
  String.length (text1 +:+ text2) = (String.length text1 + String.length text2)%nat.
Proof. induction text1 as [|c text1 IH]; simpl; [done|by rewrite IH]. Qed.

Lemma length_py_slice_to text k :
  Z.of_nat (String.length (py_slice_to text k)) =
  if decide (k < 0) then 0 `max` (Z.of_nat (String.length text) + k)
  else k `min` Z.of_nat (String.length text).
Proof.
  unfold py_slice_to. destruct (decide (k < 0)); rewrite length_substring_0; lia.
Qed.

(** X25. [truncate_text] returns a text that fits unchanged; a longer text
    becomes a cut of it followed by "...".  The result is no longer than
    [max_length] when [max_length] is at least 3; for a smaller
    [max_length] the result of a text that does not fit is longer than
    [max_length] (it has at least the three dots, and for 0, 1 or 2 the
    negative slice bound keeps all but the last characters). *)
Theorem truncate_text_length text max_length :
  let result := truncate_text text max_length in
  let len := λ t, Z.of_nat (String.length t) in
  (len text ≤ max_length → result = text) ∧
  (max_length < len text →
     ∃ cut, result = cut +:+ "..." ∧ String.prefix cut text = true) ∧
  (3 ≤ max_length → len result ≤ max_length) ∧
  (max_length < 3 → max_length < len text →
     max_length < len result ∧
     len result = 3 + 0 `max` (len text + (max_length - 3))).
Proof.
  simpl. unfold truncate_text.
  destruct (decide (Z.of_nat (String.length text) ≤ max_length)) as [Hfit|Hlong].
  - split; [done|]. split; [lia|]. split; [lia|]. lia.
  - split; [lia|]. split; [|split].
    + intros _. eexists. split; [done|].
      apply String.prefix_correct. unfold py_slice_to.
      destruct (decide (max_length - 3 < 0)); rewrite length_substring_0;
        apply substring_0_min.
    + intros Hmax. rewrite length_append, Nat2Z.inj_add, length_py_slice_to.
      rewrite decide_False by lia. simpl. lia.
    + intros Hmax _. rewrite length_append, Nat2Z.inj_add, length_py_slice_to.
      rewrite decide_True by lia. simpl. lia.
Qed.

Section CancelledDialog.

Variable parse_float : string → option Z.
Variable MAX_DEAL_AMOUNT : Z.

Local Abbreviation enter_amount := (handle_deal_amount parse_float MAX_DEAL_AMOUNT).

(** X26. The "cancel deal" branch removes the draft of the user and
    unregisters no step handler.  A dialog handler run on the next message
    of that user, whatever its text, stores no deal, moves no balance and
    does not bring the draft back: [handle_seller_username] raises
    [KeyError] on a name starting with "@" and asks again otherwise,
    [handle_deal_description] raises [KeyError], and [handle_deal_amount]
    never announces a created deal. *)
Theorem cancelled_dialog_stores_nothing bs user_id chat txt now :
  let msg := mk_message (Some user_id) chat txt in
  let bs' := cancel_deal bs user_id in
  let name := handle_seller_username bs' msg in
  let descr := handle_deal_description bs' now msg in
  let amount := enter_amount bs' now msg in
  name = (if String.prefix "@" txt then (bs', None, Raised "KeyError")
          else (bs', Some AskValidUsername, Returned)) ∧
  descr = (bs', None, Raised "KeyError") ∧
  deals (store amount.1.1) = deals (store bs) ∧
  (∀ other, balance_of (store amount.1.1) other = balance_of (store bs) other) ∧
  deal_creation_state amount.1.1 = delete user_id (deal_creation_state bs) ∧
  (∀ id a seller d, BotMessage chat (DealCreated id a seller d) ∉ amount.1.2).
Proof.
  cbv zeta. unfold cancel_deal, handle_seller_username, handle_deal_description.
  cbn [from_user_id text chat_id store deal_creation_state].
  rewrite lookup_delete_eq. split; [done|]. split; [done|].
  unfold handle_deal_amount. cbn [from_user_id text chat_id store deal_creation_state].
  pose proof (get_user_tables (store bs) now user_id) as (_ & _ & Hbal & _ & Hd & _).
  destruct (get_user (store bs) now user_id) as [st1 user]. cbn [fst snd] in *.
  rewrite lookup_delete_eq.
  destruct (validate_amount parse_float txt 1 (Some MAX_DEAL_AMOUNT)) as [e|a].
  - cbn [fst snd store deal_creation_state]. repeat split; try done.
    intros id a seller d. rewrite !elem_of_cons, elem_of_nil.
    intros [?|[?|[]]]; discriminate.
  - destruct (decide (a > balance user)); cbn [fst snd store deal_creation_state].
    + repeat split; try done.
      intros id a' seller d. rewrite !elem_of_cons, elem_of_nil.
      intros [?|[?|[]]]; discriminate.
    + repeat split; try done. intros id a' seller d. apply not_elem_of_nil.
Qed.

End CancelledDialog.
